(** * Clientes: a file-backed customer collection behind three HTTP routes

    Shallow embedding of [src/index.js], an Express application that
    serves GET /clientes, POST /clientes and DELETE /clientes/:id over
    the JSON file ./data/clientes.json, and the properties that its
    specification states about it.

    The development has three parts.

    - The model.  [json] is a document, as it sits in the file, in a
      request body and in a response body.  [value] is a JavaScript
      value, as the handlers compute with it; [undefined] and [NaN]
      exist only there.  [JSON_parse] and [JSON_stringify] go between
      the two.  The operators that the source applies ([!], [+ 1],
      [===], [parseInt], property read and write, [findIndex],
      [splice]) are functions on values.  The accessors
      [leerClientes] and [guardarClientes] and the three handlers are
      written line by line after the source, in a monad that threads
      the disk and ends in a result, a thrown error, or the mark
      [Unmodelled].
    - The vocabulary of the specification: identifiers of a
      collection, the two identifier rules, the collection kept in
      memory ([InMemory]) and the pure mutations of a run.
    - Lemmas on the model, then one theorem for each property.

    Conventions.
    - A document is its abstract syntax: the members of an object in
      enumeration order, every key once.  The layout of the text (the
      two-space indentation that [guardarClientes] asks for) is not
      represented.
    - Numbers are the integer-valued doubles.  A number literal is
      identified with the double it denotes; the rounding of a sum and
      of [parseInt] to 53 significant bits is written out in
      [round_double].  Fractional literals are not represented.
    - Strings are byte strings (UTF-8).
    - Requests are served one at a time. *)

From Stdlib Require Import ZArith List String Ascii Bool Sorted Lia.
Import ListNotations.

Local Open Scope string_scope.
Local Open Scope Z_scope.

(** * The model *)

(** ** Documents and values *)

Unset Elimination Schemes.

(** A JSON document. *)
Inductive json : Type :=
| JNull
| JBool (b : bool)
| JNum (n : Z)
| JStr (s : string)
| JArr (items : list json)
| JObj (members : list (string * json)).

(** A JavaScript number: a finite (integer-valued) double, an infinity
    or not-a-number. *)
Inductive number : Type :=
| Fin (z : Z)
| Inf (negative : bool)
| NaN.

(** A JavaScript value as the handlers see it. *)
Inductive value : Type :=
| VUndefined
| VNull
| VBool (b : bool)
| VNum (n : number)
| VStr (s : string)
| VArr (items : list value)
| VObj (props : list (string * value)).

Set Elimination Schemes.

(** Structural induction on documents, with the hypothesis at hand for
    every item of an array and every member of an object. *)
Section JsonInduction.
Variable P : json -> Prop.
Hypothesis Hnull : P JNull.
Hypothesis Hbool : forall b, P (JBool b).
Hypothesis Hnum : forall n, P (JNum n).
Hypothesis Hstr : forall s, P (JStr s).
Hypothesis Harr : forall l, Forall P l -> P (JArr l).
Hypothesis Hobj : forall o, Forall (fun kv => P (snd kv)) o -> P (JObj o).

Fixpoint json_ind (j : json) : P j :=
  match j with
  | JNull => Hnull
  | JBool b => Hbool b
  | JNum n => Hnum n
  | JStr s => Hstr s
  | JArr l =>
      Harr l ((fix items (l : list json) : Forall P l :=
                 match l with
                 | [] => Forall_nil P
                 | x :: r => Forall_cons x (json_ind x) (items r)
                 end) l)
  | JObj o =>
      Hobj o ((fix members (o : list (string * json))
                 : Forall (fun kv => P (snd kv)) o :=
                 match o with
                 | [] => Forall_nil _
                 | kv :: r => Forall_cons kv (json_ind (snd kv)) (members r)
                 end) o)
  end.
End JsonInduction.

(** ** Objects as ordered property lists *)

Section Properties.
Context {A : Type}.

(** The value stored under key [k], if the object has that key. *)
Fixpoint assoc (k : string) (o : list (string * A)) : option A :=
  match o with
  | [] => None
  | (k', a) :: r => if String.eqb k k' then Some a else assoc k r
  end.

(** [o.k = a]: an existing property keeps its place, a new one goes
    last. *)
Fixpoint assign (k : string) (a : A) (o : list (string * A))
  : list (string * A) :=
  match o with
  | [] => [(k, a)]
  | (k', a') :: r =>
      if String.eqb k k' then (k', a) :: r else (k', a') :: assign k a r
  end.
End Properties.

(** ** JSON.parse and JSON.stringify *)

(** [JSON.parse], from the document to the value it denotes. *)
Fixpoint JSON_parse (j : json) : value :=
  match j with
  | JNull => VNull
  | JBool b => VBool b
  | JNum n => VNum (Fin n)
  | JStr s => VStr s
  | JArr l => VArr (map JSON_parse l)
  | JObj o => VObj (map (fun kv => (fst kv, JSON_parse (snd kv))) o)
  end.

Definition is_undefined (v : value) : bool :=
  match v with
  | VUndefined => true
  | _ => false
  end.

(** [JSON.stringify]: a number that is not finite becomes [null], an
    [undefined] item of an array becomes [null], a property whose value
    is [undefined] is left out.  (At top level [undefined] has no
    serialization; the handlers never pass it.) *)
Fixpoint JSON_stringify (v : value) : json :=
  match v with
  | VUndefined => JNull
  | VNull => JNull
  | VBool b => JBool b
  | VNum (Fin n) => JNum n
  | VNum _ => JNull
  | VStr s => JStr s
  | VArr l => JArr (map JSON_stringify l)
  | VObj o =>
      JObj (flat_map (fun kv =>
                        if is_undefined (snd kv) then []
                        else [(fst kv, JSON_stringify (snd kv))]) o)
  end.

(** ** Numbers *)

(** The double nearest to the integer [z], ties to the even
    significand: an integer of magnitude at most 2^53 is a double; a
    larger one keeps its 53 leading bits; from 2^1024 on the result is
    an infinity. *)
Definition round_double (z : Z) : number :=
  let a := Z.abs z in
  if a <=? 2 ^ 53 then Fin z
  else
    let e := Z.log2 a - 52 in
    let q := a / 2 ^ e in
    let r := a mod 2 ^ e in
    let half := 2 ^ (e - 1) in
    let q' := if (half <? r) || ((r =? half) && Z.odd q) then q + 1 else q in
    let m := q' * 2 ^ e in
    if 2 ^ 1024 <=? m then Inf (z <? 0) else Fin (Z.sgn z * m).

(** The integers on which [+ 1] is exact. *)
Definition safe_integer (z : Z) : Prop := - 2 ^ 53 < z < 2 ^ 53.

(** ** Outcomes *)

Inductive error : Type :=
| TypeError      (* property of null or undefined, call of a non-function *)
| SystemError.   (* the file cannot be read as a document, or not written *)

(** How the evaluation of an expression ends.  [Unmodelled] marks the
    one operation that the embedding does not carry out: the string
    conversion of an object or array operand of [+]. *)
Inductive outcome (A : Type) : Type :=
| Returns (a : A)
| Throws (e : error)
| Unmodelled.

Arguments Returns {A} a.
Arguments Throws {A} e.
Arguments Unmodelled {A}.

(** ** The operators of the source *)

(** ToBoolean, behind [!nuevoCliente.nombre]. *)
Definition to_boolean (v : value) : bool :=
  match v with
  | VUndefined | VNull => false
  | VBool b => b
  | VNum (Fin z) => negb (z =? 0)
  | VNum (Inf _) => true
  | VNum NaN => false
  | VStr s => negb (String.eqb s "")
  | VArr _ | VObj _ => true
  end.

(** [v.k] for the two keys the source reads, [nombre] and [id].
    Neither is a property of a built-in prototype, so only an object's
    own properties can answer; reading from [null] or [undefined]
    throws. *)
Definition get_prop (v : value) (k : string) : outcome value :=
  match v with
  | VUndefined | VNull => Throws TypeError
  | VObj o => Returns (match assoc k o with Some w => w | None => VUndefined end)
  | _ => Returns VUndefined
  end.

(** [v.k = w] in module (strict) code.  On an array the property is
    set beside the items, where [JSON.stringify] does not look. *)
Definition set_prop (v : value) (k : string) (w : value) : outcome value :=
  match v with
  | VObj o => Returns (VObj (assign k w o))
  | VArr l => Returns (VArr l)
  | _ => Throws TypeError
  end.

(** [v + 1]: a string operand concatenates, [undefined] gives [NaN],
    [null] and booleans count as 0 and 1, a number is added and
    rounded. *)
Definition plus_one (v : value) : outcome value :=
  match v with
  | VUndefined => Returns (VNum NaN)
  | VNull => Returns (VNum (Fin 1))
  | VBool b => Returns (VNum (Fin (if b then 2 else 1)))
  | VNum (Fin z) => Returns (VNum (round_double (z + 1)))
  | VNum n => Returns (VNum n)
  | VStr s => Returns (VStr (s ++ "1"))
  | VArr _ | VObj _ => Unmodelled
  end.

(** [v === n] for a number [n]: equal only to the same number, and
    [NaN] to nothing. *)
Definition strict_equals (v : value) (n : number) : bool :=
  match v, n with
  | VNum (Fin a), Fin b => a =? b
  | VNum (Inf s), Inf t => Bool.eqb s t
  | _, _ => false
  end.

(** The receiver of [push], [at], [findIndex] and [splice].  On a value
    that is not an array the source ends in a [TypeError] before any
    write: [null.length] throws, and everywhere else [push], [at] or
    [findIndex] is missing or is a member that cannot be called. *)
Definition as_array (v : value) : outcome (list value) :=
  match v with
  | VArr l => Returns l
  | _ => Throws TypeError
  end.

(** [clientes.splice(index, 1)] for an index inside the array: the
    removed items and the array that remains. *)
Definition splice (l : list value) (index : Z) : list value * list value :=
  let i := Z.to_nat index in
  (firstn 1 (skipn i l), (firstn i l ++ skipn (S i) l)%list).

(** ** parseInt *)

Definition code (c : ascii) : Z := Z.of_N (N_of_ascii c).

(** StrWhiteSpaceChar: white space and line terminators, in UTF-8. *)
Fixpoint trim_start (s : string) : string :=
  match s with
  | String c r =>
      let a := code c in
      if (a =? 9) || (a =? 10) || (a =? 11) || (a =? 12) || (a =? 13)
         || (a =? 32)
      then trim_start r
      else
        match r with
        | String c2 r2 =>
            let b := code c2 in
            if (a =? 194) && (b =? 160) then trim_start r2      (* U+00A0 *)
            else
              match r2 with
              | String c3 r3 =>
                  let d := code c3 in
                  if ((a =? 225) && (b =? 154) && (d =? 128))   (* U+1680 *)
                     || ((a =? 226) && (b =? 128)
                         && (((128 <=? d) && (d <=? 138))       (* U+2000-200A *)
                             || (d =? 168) || (d =? 169)        (* U+2028, 2029 *)
                             || (d =? 175)))                    (* U+202F *)
                     || ((a =? 226) && (b =? 129) && (d =? 159)) (* U+205F *)
                     || ((a =? 227) && (b =? 128) && (d =? 128)) (* U+3000 *)
                     || ((a =? 239) && (b =? 187) && (d =? 191)) (* U+FEFF *)
                  then trim_start r3
                  else s
              | EmptyString => s
              end
        | EmptyString => s
        end
  | EmptyString => s
  end.

(** One optional sign: whether it is a minus, and what follows. *)
Definition read_sign (s : string) : bool * string :=
  match s with
  | String c r =>
      if code c =? 45 then (true, r)                  (* - *)
      else if code c =? 43 then (false, r)            (* + *)
      else (false, s)
  | EmptyString => (false, s)
  end.

(** With no radix argument: 16 after the prefix 0x or 0X, else 10. *)
Definition read_prefix (s : string) : Z * string :=
  match s with
  | String c (String x r) =>
      if (code c =? 48) && ((code x =? 120) || (code x =? 88))
      then (16, r)
      else (10, s)
  | _ => (10, s)
  end.

Definition is_decimal_digit (c : ascii) : bool :=
  (48 <=? code c) && (code c <=? 57).

(** The value of a digit in the given radix (10 or 16). *)
Definition digit_value (radix : Z) (c : ascii) : option Z :=
  let a := code c in
  if is_decimal_digit c then Some (a - 48)
  else if (radix =? 16) && (97 <=? a) && (a <=? 102) then Some (a - 87)
  else if (radix =? 16) && (65 <=? a) && (a <=? 70) then Some (a - 55)
  else None.

(** The longest prefix of digits, read from the left with accumulator
    [acc]; [None] when no digit has been read. *)
Fixpoint read_digits (radix : Z) (acc : option Z) (s : string) : option Z :=
  match s with
  | String c r =>
      match digit_value radix c with
      | Some d =>
          read_digits radix
            (Some (match acc with Some n => n * radix + d | None => d end)) r
      | None => acc
      end
  | EmptyString => acc
  end.

(** [parseInt(s)] with no radix argument. *)
Definition parseInt (s : string) : number :=
  let '(negative, s2) := read_sign (trim_start s) in
  let '(radix, s3) := read_prefix s2 in
  match read_digits radix None s3 with
  | Some n => round_double (if negative then - n else n)
  | None => NaN
  end.

(** ** The file system and the handler monad *)

(** The part of the file system the program touches: the document in
    ./data/clientes.json ([None] when the file is missing, unreadable
    or does not hold JSON text), and whether a write to it goes
    through. *)
Record disk : Type := mkDisk {
  archivoClientes : option json;
  writable : bool
}.

(** A computation reads and writes the disk and ends in an outcome. *)
Definition M (A : Type) : Type := disk -> outcome A * disk.

Definition ret {A} (a : A) : M A := fun d => (Returns a, d).

Definition bind {A B} (m : M A) (k : A -> M B) : M B :=
  fun d =>
    match m d with
    | (Returns a, d') => k a d'
    | (Throws e, d') => (Throws e, d')
    | (Unmodelled, d') => (Unmodelled, d')
    end.

(** A pure expression, evaluated inside a handler. *)
Definition lift {A} (o : outcome A) : M A := fun d => (o, d).

(** [try { m } catch (error) { h }]. *)
Definition try_catch {A} (m : M A) (h : error -> M A) : M A :=
  fun d =>
    match m d with
    | (Throws e, d') => h e d'
    | r => r
    end.

Declare Scope handler_scope.
Delimit Scope handler_scope with handler.
Notation "x <- m ;; k" := (bind m (fun x => k))
  (at level 100, m at next level, right associativity) : handler_scope.
Notation "m ;;; k" := (bind m (fun _ => k))
  (at level 100, right associativity) : handler_scope.
Local Open Scope handler_scope.

(** [fs.readFile(archivoClientes, 'utf-8')], with the text taken as
    the document it holds. *)
Definition readFile : M json :=
  fun d =>
    match archivoClientes d with
    | Some data => (Returns data, d)
    | None => (Throws SystemError, d)
    end.

(** [fs.writeFile(archivoClientes, data)]. *)
Definition writeFile (data : json) : M unit :=
  fun d =>
    if writable d
    then (Returns tt, mkDisk (Some data) (writable d))
    else (Throws SystemError, d).

(** ** Storage accessors (index.js, lines 16-24) *)

Definition leerClientes : M value :=
  data <- readFile ;;
  ret (JSON_parse data).

Definition guardarClientes (clientes : value) : M unit :=
  writeFile (JSON_stringify clientes).

(** ** Responses *)

Record response : Type := mkResponse {
  status : Z;
  body : json
}.

(** [res.status(code).json(v)]; [res.json(v)] is the case 200. *)
Definition res_json (code : Z) (v : value) : response :=
  mkResponse code (JSON_stringify v).

(** ** Route handlers (index.js, lines 27-78) *)

(** GET /clientes *)
Definition get_clientes : M response :=
  try_catch
    (clientes <- leerClientes ;;
     ret (res_json 200 clientes))
    (fun _ =>
     ret (res_json 500 (VObj [("error", VStr "Error al leer los datos.")]))).

(** The right-hand side of line 47:
    [clientes.length > 0 ? clientes.at(-1).id + 1 : 1]. *)
Definition next_id (clientes : list value) : outcome value :=
  if 0 <? Z.of_nat (List.length clientes) then
    match get_prop (last clientes VUndefined) "id" with
    | Returns id => plus_one id
    | Throws e => Throws e
    | Unmodelled => Unmodelled
    end
  else Returns (VNum (Fin 1)).

(** POST /clientes, with [req.body] as the JSON middleware left it. *)
Definition post_clientes (body : value) : M response :=
  try_catch
    (clientes <- leerClientes ;;
     let nuevoCliente := body in
     nombre <- lift (get_prop nuevoCliente "nombre") ;;
     if negb (to_boolean nombre) then
       ret (res_json 400 (VObj [("error", VStr "Falta el campo 'nombre'")]))
     else
       clientes <- lift (as_array clientes) ;;
       id <- lift (next_id clientes) ;;
       nuevoCliente <- lift (set_prop nuevoCliente "id" id) ;;
       let clientes := (clientes ++ [nuevoCliente])%list in
       guardarClientes (VArr clientes) ;;;
       ret (res_json 201 nuevoCliente))
    (fun _ =>
     ret (res_json 500 (VObj [("error", VStr "Error al guardar el cliente.")]))).

(** [clientes.findIndex(c => c.id === id)], scanning from [index]. *)
Fixpoint findIndex_from (index : Z) (clientes : list value) (id : number)
  : outcome Z :=
  match clientes with
  | [] => Returns (-1)
  | c :: rest =>
      match get_prop c "id" with
      | Returns cid =>
          if strict_equals cid id then Returns index
          else findIndex_from (index + 1) rest id
      | Throws e => Throws e
      | Unmodelled => Unmodelled
      end
  end.

Definition findIndex (clientes : list value) (id : number) : outcome Z :=
  findIndex_from 0 clientes id.

(** DELETE /clientes/:id, with [req.params.id] as a string. *)
Definition delete_clientes (req_params_id : string) : M response :=
  try_catch
    (let id := parseInt req_params_id in
     clientes <- leerClientes ;;
     clientes <- lift (as_array clientes) ;;
     index <- lift (findIndex clientes id) ;;
     if negb (index =? -1) then
       let '(eliminado, clientes) := splice clientes index in
       guardarClientes (VArr clientes) ;;;
       ret (res_json 200 (nth 0 eliminado VUndefined))
     else
       ret (res_json 404 (VObj [("mensaje", VStr "Cliente no encontrado")])))
    (fun _ =>
     ret (res_json 500 (VObj [("error", VStr "Error al eliminar el cliente.")]))).

(** ** Requests *)

(** One request to the service.  The body of a POST is the document
    the JSON middleware parsed, or nothing when it parsed none and left
    [req.body] [undefined]; a middleware that leaves an empty object
    in that case is covered by [Some (JObj [])]. *)
Inductive request : Type :=
| GET_clientes
| POST_clientes (document : option json)
| DELETE_clientes (req_params_id : string).

Definition req_body (document : option json) : value :=
  match document with
  | Some j => JSON_parse j
  | None => VUndefined
  end.

Definition handle (r : request) : M response :=
  match r with
  | GET_clientes => get_clientes
  | POST_clientes b => post_clientes (req_body b)
  | DELETE_clientes p => delete_clientes p
  end.

(** Requests served one after the other: the outcomes, and the disk
    at the end. *)
Fixpoint serve (rs : list request) (d : disk)
  : list (outcome response) * disk :=
  match rs with
  | [] => ([], d)
  | r :: rest =>
      let '(o, d') := handle r d in
      let '(os, d'') := serve rest d' in
      (o :: os, d'')
  end.

(** The bodies of the fixed responses. *)
Definition falta_nombre : json :=
  JObj [("error", JStr "Falta el campo 'nombre'")].
Definition error_al_leer : json :=
  JObj [("error", JStr "Error al leer los datos.")].
Definition error_al_guardar : json :=
  JObj [("error", JStr "Error al guardar el cliente.")].
Definition error_al_eliminar : json :=
  JObj [("error", JStr "Error al eliminar el cliente.")].
Definition no_encontrado : json :=
  JObj [("mensaje", JStr "Cliente no encontrado")].

(** * The vocabulary of the specification *)

(** ** Identifiers of a collection *)

(** The identifier member of a customer document. *)
Definition identifier (c : json) : option json :=
  match c with
  | JObj o => assoc "id" o
  | _ => None
  end.

(** The customer document [c] carries the number [id] as identifier. *)
Definition has_identifier (id : number) (c : json) : bool :=
  match identifier c, id with
  | Some (JNum a), Fin b => a =? b
  | _, _ => false
  end.

(** The numeric identifiers of the customers, in the order of the
    array. *)
Definition identifiers (l : list json) : list Z :=
  flat_map (fun c => match identifier c with
                     | Some (JNum n) => [n]
                     | _ => []
                     end) l.

(** Every customer carries a number as identifier. *)
Definition numbered (l : list json) : Prop :=
  map identifier l = map (fun n => Some (JNum n)) (identifiers l).

(** The identifiers grow along the array. *)
Definition increasing (l : list json) : Prop :=
  numbered l /\ StronglySorted Z.lt (identifiers l).

(** No two customers share an identifier. *)
Definition distinct (l : list json) : Prop := NoDup (map identifier l).


(** ** The two identifier rules *)

(** The rule of the data model: the greatest existing identifier plus
    one, or 1 for the empty collection. *)
Definition max_identifier_plus_one (l : list json) : Z :=
  match identifiers l with
  | [] => 1
  | n :: r => fold_left Z.max r n + 1
  end.

(** The rule of the source: the identifier of the last customer plus
    one, or 1 for the empty collection. *)
Definition last_identifier_plus_one (l : list json) : option Z :=
  match rev l with
  | [] => Some 1
  | c :: _ =>
      match identifier c with
      | Some (JNum n) => Some (n + 1)
      | _ => None
      end
  end.

(** ** Path parameters *)

(** After leading white space and one optional sign, the string goes
    on with a decimal digit. *)
Definition begins_with_digit (s : string) : bool :=
  match snd (read_sign (trim_start s)) with
  | String c _ => is_decimal_digit c
  | EmptyString => false
  end.

Fixpoint all_digits (s : string) : bool :=
  match s with
  | String c r => is_decimal_digit c && all_digits r
  | EmptyString => true
  end.

(** The parameter is numeric: one optional sign and then decimal
    digits only, at least one. *)
Definition numeric (s : string) : bool :=
  match snd (read_sign s) with
  | String c r => all_digits (String c r)
  | EmptyString => false
  end.

(** ** Requests and their effect *)


(** The array on disk after POST /clientes over the array [l], for
    every body the middleware can hand over; [w] tells whether the
    file can be written. *)
Definition after_post (b : option json) (l : list json) (w : bool) : list json :=
  match b with
  | Some (JObj o) =>
      match assoc "nombre" o with
      | Some nombre =>
          if to_boolean (JSON_parse nombre) && w then
            match next_id (map JSON_parse l) with
            | Returns id => (l ++ [JObj (assign "id" (JSON_stringify id) o)])%list
            | _ => l
            end
          else l
      | None => l
      end
  | _ => l
  end.

(** ** The collection kept in memory *)

(** The pure mutations of the specification, on a collection that
    stays in memory and is never written out: append with the next
    sequential identifier (one more than the identifier of the last
    element, in the arithmetic of JavaScript numbers), find by
    identifier, remove by identifier. *)
Module InMemory.

Definition identifier (c : value) : value :=
  match c with
  | VObj o => match assoc "id" o with Some v => v | None => VUndefined end
  | _ => VUndefined
  end.

(** The candidate is an object with a name that counts as present. *)
Definition has_name (c : value) : bool :=
  match c with
  | VObj o =>
      match assoc "nombre" o with
      | Some v => to_boolean v
      | None => false
      end
  | _ => false
  end.

(** One more than the identifier of the newest customer; 1 when there
    is none. *)
Definition sequential_identifier (clientes : list value) : number :=
  match rev clientes with
  | [] => Fin 1
  | c :: _ =>
      match identifier c with
      | VNum (Fin n) => round_double (n + 1)
      | _ => NaN
      end
  end.

Definition with_identifier (c : value) (id : number) : value :=
  match c with
  | VObj o => VObj (assign "id" (VNum id) o)
  | _ => c
  end.

Definition append (clientes : list value) (c : value) : list value :=
  (clientes ++ [with_identifier c (sequential_identifier clientes)])%list.

(** Without the first customer that has the identifier. *)
Fixpoint remove (id : number) (clientes : list value) : list value :=
  match clientes with
  | [] => []
  | c :: rest =>
      if strict_equals (identifier c) id then rest
      else c :: remove id rest
  end.

(** The mutation a request stands for. *)
Definition apply (clientes : list value) (r : request) : list value :=
  match r with
  | GET_clientes => clientes
  | POST_clientes b =>
      if has_name (req_body b) then append clientes (req_body b) else clientes
  | DELETE_clientes p => remove (parseInt p) clientes
  end.


End InMemory.

(** ** The mutations that a run acknowledges *)







(** ** Sample data *)

Definition ana : list (string * json) := [("nombre", JStr "Ana"); ("id", JNum 1)].
Definition leo : list (string * json) := [("nombre", JStr "Leo"); ("id", JNum 2)].
Definition leo_bis : list (string * json) := [("nombre", JStr "Leo"); ("id", JNum 2); ("vip", JBool true)].
Definition eva : list (string * json) := [("nombre", JStr "Eva")].

(** A body with an identifier chosen by the client. *)
Definition eva_99 : list (string * json) := [("id", JNum 99); ("nombre", JStr "Eva")].

(** A body without a name. *)
Definition sin_nombre : list (string * json) := [("telefono", JStr "555")].

(** Two customers whose identifiers go down: 5, then 2. *)
Definition cinco_dos : list json :=
  [JObj [("nombre", JStr "Ana"); ("id", JNum 5)];
   JObj [("nombre", JStr "Leo"); ("id", JNum 2)]].


(** A customer with identifier 12. *)
Definition doce : json := JObj [("nombre", JStr "Ana"); ("id", JNum 12)].


(** ** Routes and their answers *)


(** The body of the 500 answer of a route. *)
Definition error_of (r : request) : json :=
  match r with
  | GET_clientes => error_al_leer
  | POST_clientes _ => error_al_guardar
  | DELETE_clientes _ => error_al_eliminar
  end.

(** A record without identifier, and one whose identifier is a string. *)
Definition ana_sin_id : list (string * json) := [("nombre", JStr "Ana")].
Definition ana_texto : list (string * json) :=
  [("nombre", JStr "Ana"); ("id", JStr "7")].

(** A body whose name is a number. *)
Definition nombre_numero : list (string * json) := [("nombre", JNum 7)].

(** A body whose name is the empty string. *)
Definition nombre_vacio : list (string * json) := [("nombre", JStr "")].

(** * Lemmas on the model *)

(** Opens a handler up to its accesses to the disk. *)
Ltac run_handler :=
  cbv beta iota zeta delta [get_clientes post_clientes delete_clientes try_catch bind
                  leerClientes readFile lift ret].

(** ** Property lists *)

Section PropertyLemmas.
Context {A B : Type}.

Lemma assoc_assign_same (k : string) (a : A) (o : list (string * A)) :
  assoc k (assign k a o) = Some a.
Proof.
  induction o as [|[k' a'] r IH]; simpl.
  - now rewrite String.eqb_refl.
  - destruct (String.eqb k k') eqn:E; simpl; rewrite E; auto.
Qed.

Lemma assoc_assign_other (k k' : string) (a : A) (o : list (string * A)) :
  k' <> k -> assoc k' (assign k a o) = assoc k' o.
Proof.
  intros Hne. induction o as [|[k0 a0] r IH]; simpl.
  - apply String.eqb_neq in Hne. now rewrite Hne.
  - destruct (String.eqb k k0) eqn:E; simpl.
    + apply String.eqb_eq in E. subst k0.
      apply String.eqb_neq in Hne. now rewrite Hne.
    + now rewrite IH.
Qed.

Lemma assign_assign (k : string) (a b : A) (o : list (string * A)) :
  assign k b (assign k a o) = assign k b o.
Proof.
  induction o as [|[k' a'] r IH]; simpl.
  - now rewrite String.eqb_refl.
  - destruct (String.eqb k k') eqn:E; simpl; rewrite E; congruence.
Qed.

Lemma assoc_map (f : A -> B) (k : string) (o : list (string * A)) :
  assoc k (map (fun kv => (fst kv, f (snd kv))) o) = option_map f (assoc k o).
Proof.
  induction o as [|[k' a'] r IH]; simpl; auto.
  destruct (String.eqb k k'); auto.
Qed.


End PropertyLemmas.

Lemma assign_keeps_keys {A} (k : string) (a b : A) (o : list (string * A)) :
  assoc k o = Some b -> map fst (assign k a o) = map fst o.
Proof.
  induction o as [|[k' a'] r IH]; simpl; try discriminate.
  destruct (String.eqb k k'); simpl; intros H; [reflexivity|].
  now rewrite IH.
Qed.

(** ** The two directions between documents and values *)

Lemma parse_defined (j : json) : is_undefined (JSON_parse j) = false.
Proof. destruct j; reflexivity. Qed.

(** Writing out what was read gives the document back. *)
Lemma stringify_parse (j : json) : JSON_stringify (JSON_parse j) = j.
Proof.
  induction j as [| | | |l IH|o IH] using json_ind; simpl; auto.
  - f_equal. induction IH as [|x r Hx _ IHr]; simpl; congruence.
  - f_equal. induction IH as [|[k x] r Hx _ IHr]; simpl in *; auto.
    rewrite parse_defined. simpl. congruence.
Qed.

Lemma stringify_parse_items (l : list json) :
  map JSON_stringify (map JSON_parse l) = l.
Proof.
  induction l as [|x r IH]; simpl; auto.
  now rewrite stringify_parse, IH.
Qed.

(** A property assigned on a parsed object and written out is a member
    assigned on the document. *)
Lemma stringify_assign (k : string) (w : value) (o : list (string * json)) :
  is_undefined w = false ->
  JSON_stringify
    (VObj (assign k w (map (fun kv => (fst kv, JSON_parse (snd kv))) o)))
  = JObj (assign k (JSON_stringify w) o).
Proof.
  intros Hw. simpl. f_equal.
  induction o as [|[k' x] r IH]; simpl.
  - now rewrite Hw.
  - destruct (String.eqb k k'); simpl.
    + rewrite Hw. simpl. f_equal.
      pose proof (stringify_parse (JObj r)) as E. simpl in E. congruence.
    + rewrite parse_defined, stringify_parse. simpl. congruence.
Qed.

(** ** Rounding and truth *)

Lemma round_double_exact (z : Z) :
  Z.abs z <= 2 ^ 53 -> round_double z = Fin z.
Proof.
  intros H. unfold round_double.
  destruct (Z.leb_spec (Z.abs z) (2 ^ 53)); [reflexivity | lia].
Qed.

Lemma plus_one_safe (n : Z) :
  safe_integer n -> plus_one (VNum (Fin n)) = Returns (VNum (Fin (n + 1))).
Proof.
  unfold safe_integer. intros H. simpl.
  rewrite round_double_exact; [reflexivity | lia].
Qed.


Lemma nonempty_truthy (s : string) : s <> "" -> to_boolean (VStr s) = true.
Proof.
  intros H. simpl. apply String.eqb_neq in H. now rewrite H.
Qed.

(** ** parseInt on a string without a leading digit *)

Lemma read_prefix_no_digit (t : string) :
  match t with
  | String a _ => is_decimal_digit a
  | EmptyString => false
  end = false ->
  read_digits (fst (read_prefix t)) None (snd (read_prefix t)) = None.
Proof.
  destruct t as [|a [|x t]]; intros Ha; try reflexivity.
  - cbn. unfold digit_value. now rewrite Ha.
  - unfold read_prefix.
    destruct (Z.eqb_spec (code a) 48) as [E|_].
    + unfold is_decimal_digit in Ha. rewrite E in Ha. discriminate.
    + cbn. unfold digit_value. now rewrite Ha.
Qed.

Lemma parseInt_no_digit (s : string) :
  begins_with_digit s = false -> parseInt s = NaN.
Proof.
  unfold begins_with_digit, parseInt.
  destruct (read_sign (trim_start s)) as [negative s2]. cbn [snd].
  intros H. apply read_prefix_no_digit in H.
  destruct (read_prefix s2) as [radix s3]. cbn [fst snd] in H.
  now rewrite H.
Qed.

(** ** The identifier expression *)

Lemma plus_one_defined (v w : value) :
  plus_one v = Returns w -> is_undefined w = false.
Proof.
  destruct v as [| | b | [z|s|] | s | l | o]; simpl; intros H;
    inversion H; reflexivity.
Qed.

Lemma next_id_defined (clientes : list value) (id : value) :
  next_id clientes = Returns id -> is_undefined id = false.
Proof.
  unfold next_id. destruct (0 <? Z.of_nat (List.length clientes)).
  - destruct (get_prop (last clientes VUndefined) "id"); try discriminate.
    apply plus_one_defined.
  - intros H. inversion H. reflexivity.
Qed.

Lemma next_id_empty : next_id [] = Returns (VNum (Fin 1)).
Proof. reflexivity. Qed.

Lemma next_id_last (clientes : list value) (c : value) :
  next_id (clientes ++ [c])%list =
  match get_prop c "id" with
  | Returns id => plus_one id
  | Throws e => Throws e
  | Unmodelled => Unmodelled
  end.
Proof.
  unfold next_id. rewrite last_last, length_app. simpl.
  destruct (Z.ltb_spec 0 (Z.of_nat (List.length clientes + 1))); [reflexivity | lia].
Qed.

(** ** What POST /clientes does, case by case *)

(** Validation fails: 400, and the disk is not touched. *)
Lemma post_rejected (d : disk) (data : json) (body nombre : value) :
  archivoClientes d = Some data ->
  get_prop body "nombre" = Returns nombre ->
  to_boolean nombre = false ->
  post_clientes body d = (Returns (mkResponse 400 falta_nombre), d).
Proof.
  intros Hd Hn Hb.
  run_handler.
  rewrite Hd, Hn, Hb. reflexivity.
Qed.

(** Validation passes on an object and the file holds an array: the
    outcome follows the identifier expression and the write. *)
Lemma post_accepted (l : list json) (w : bool) (o : list (string * json))
      (nombre : json) :
  assoc "nombre" o = Some nombre ->
  to_boolean (JSON_parse nombre) = true ->
  post_clientes (JSON_parse (JObj o)) (mkDisk (Some (JArr l)) w) =
  match next_id (map JSON_parse l) with
  | Returns id =>
      let nuevo := JObj (assign "id" (JSON_stringify id) o) in
      if w
      then (Returns (mkResponse 201 nuevo),
            mkDisk (Some (JArr (l ++ [nuevo])%list)) w)
      else (Returns (mkResponse 500 error_al_guardar),
            mkDisk (Some (JArr l)) w)
  | Throws _ =>
      (Returns (mkResponse 500 error_al_guardar), mkDisk (Some (JArr l)) w)
  | Unmodelled => (Unmodelled, mkDisk (Some (JArr l)) w)
  end.
Proof.
  intros Hn Hb.
  run_handler.
  cbn [archivoClientes JSON_parse get_prop].
  rewrite assoc_map, Hn. cbn [option_map]. rewrite Hb.
  cbn [negb as_array].
  destruct (next_id (map JSON_parse l)) as [id|e|] eqn:Hid; try reflexivity.
  assert (Hdef : is_undefined id = false) by (eapply next_id_defined; eauto).
  cbn [set_prop]. unfold guardarClientes, writeFile, res_json.
  cbn [writable]. destruct w; try reflexivity.
  rewrite stringify_assign by assumption.
  cbn [JSON_stringify]. rewrite map_app, stringify_parse_items.
  cbn [map]. rewrite stringify_assign by assumption.
  reflexivity.
Qed.

Lemma post_disk (b : option json) (l : list json) (w : bool) :
  snd (post_clientes (req_body b) (mkDisk (Some (JArr l)) w))
  = mkDisk (Some (JArr (after_post b l w))) w.
Proof.
  destruct b as [[| x | n | s | a | o]|]; try reflexivity.
  cbn [req_body after_post].
  destruct (assoc "nombre" o) as [nombre|] eqn:Hn.
  - destruct (to_boolean (JSON_parse nombre)) eqn:Hb.
    + rewrite (post_accepted l w o nombre Hn Hb). cbn [andb].
      destruct (next_id (map JSON_parse l)); destruct w; reflexivity.
    + rewrite (post_rejected _ (JArr l) _ (JSON_parse nombre));
        [reflexivity | reflexivity | | exact Hb].
      cbn [JSON_parse get_prop]. now rewrite assoc_map, Hn.
  - rewrite (post_rejected _ (JArr l) _ VUndefined);
      [reflexivity | reflexivity | | reflexivity].
    cbn [JSON_parse get_prop]. now rewrite assoc_map, Hn.
Qed.

(** ** What DELETE /clientes/:id does, case by case *)

Lemma read_identifier (id : number) (c : json) :
  c <> JNull ->
  exists v, get_prop (JSON_parse c) "id" = Returns v
            /\ strict_equals v id = has_identifier id c.
Proof.
  intros Hc. destruct c as [| b | n | s | l | o]; try congruence;
    try (exists VUndefined; split; reflexivity).
  cbn [JSON_parse get_prop]. rewrite assoc_map.
  unfold has_identifier. cbn [identifier].
  destruct (assoc "id" o) as [[| b | n | s | l | o']|];
    (eexists; split; [reflexivity|]); destruct id; reflexivity.
Qed.

Lemma findIndex_from_none (id : number) (l : list json) (i : Z) :
  Forall (fun c => c <> JNull /\ has_identifier id c = false) l ->
  findIndex_from i (map JSON_parse l) id = Returns (-1).
Proof.
  intros H. revert i. induction H as [|c r [Hc Hm] _ IH]; intros i; simpl.
  - reflexivity.
  - destruct (read_identifier id c Hc) as (v & Hv & Hs).
    rewrite Hv, Hs, Hm. apply IH.
Qed.

Lemma findIndex_from_first (id : number) (l1 l2 : list json) (c : json) (i : Z) :
  Forall (fun c => c <> JNull /\ has_identifier id c = false) l1 ->
  has_identifier id c = true ->
  findIndex_from i (map JSON_parse (l1 ++ c :: l2)%list) id
  = Returns (i + Z.of_nat (List.length l1)).
Proof.
  intros H Hm. revert i. induction H as [|x r [Hx Hxm] _ IH]; intros i; simpl.
  - assert (Hc : c <> JNull) by (intros ->; discriminate).
    destruct (read_identifier id c Hc) as (v & Hv & Hs).
    rewrite Hv, Hs, Hm. f_equal. lia.
  - destruct (read_identifier id x Hx) as (v & Hv & Hs).
    rewrite Hv, Hs, Hxm, IH. f_equal. lia.
Qed.

Lemma splice_middle (l1 l2 : list value) (c : value) :
  splice (l1 ++ c :: l2)%list (Z.of_nat (List.length l1))
  = ([c], (l1 ++ l2)%list).
Proof.
  unfold splice. rewrite Nat2Z.id.
  induction l1 as [|x r IH]; cbn [List.length app skipn firstn].
  - reflexivity.
  - injection IH as E1 E2. now rewrite E1, E2.
Qed.

Lemma splice_at (l1 l2 : list json) (c : json) :
  splice (map JSON_parse (l1 ++ c :: l2)%list) (0 + Z.of_nat (List.length l1))
  = ([JSON_parse c], map JSON_parse (l1 ++ l2)%list).
Proof.
  rewrite Z.add_0_l, !map_app. cbn [map].
  rewrite <- (length_map JSON_parse l1). apply splice_middle.
Qed.


(** No customer has the identifier: 404, and the disk is not touched. *)
Lemma delete_not_found (p : string) (l : list json) (w : bool) :
  Forall (fun c => c <> JNull /\ has_identifier (parseInt p) c = false) l ->
  delete_clientes p (mkDisk (Some (JArr l)) w)
  = (Returns (mkResponse 404 no_encontrado), mkDisk (Some (JArr l)) w).
Proof.
  intros H.
  run_handler.
  cbn [archivoClientes JSON_parse as_array]. unfold findIndex.
  rewrite findIndex_from_none by assumption. reflexivity.
Qed.

(** The first customer with the identifier is taken out, and the
    outcome follows the write. *)
Lemma delete_found (p : string) (l1 l2 : list json) (c : json) (w : bool) :
  Forall (fun c => c <> JNull /\ has_identifier (parseInt p) c = false) l1 ->
  has_identifier (parseInt p) c = true ->
  delete_clientes p (mkDisk (Some (JArr (l1 ++ c :: l2)%list)) w)
  = if w
    then (Returns (mkResponse 200 c), mkDisk (Some (JArr (l1 ++ l2)%list)) w)
    else (Returns (mkResponse 500 error_al_eliminar),
          mkDisk (Some (JArr (l1 ++ c :: l2)%list)) w).
Proof.
  intros H Hc.
  run_handler.
  cbn [archivoClientes JSON_parse as_array]. unfold findIndex.
  rewrite findIndex_from_first by assumption.
  destruct (Z.eqb_spec (0 + Z.of_nat (List.length l1)) (-1)) as [E|_]; [lia|].
  cbn [negb]. rewrite splice_at.
  unfold guardarClientes, writeFile, res_json. cbn [writable].
  destruct w; [|reflexivity].
  cbn [nth JSON_stringify]. now rewrite stringify_parse, stringify_parse_items.
Qed.

(** DELETE /clientes/:id leaves the array as it was or takes one item
    out of it. *)
Lemma findIndex_from_position (id : number) (l : list json) (i k : Z) :
  findIndex_from i (map JSON_parse l) id = Returns k ->
  k = -1 \/ exists l1 c l2, l = (l1 ++ c :: l2)%list
                            /\ k = i + Z.of_nat (List.length l1).
Proof.
  revert i. induction l as [|x r IH]; intros i; simpl.
  - intros H. inversion H. now left.
  - destruct (get_prop (JSON_parse x) "id") as [v|e|]; try discriminate.
    destruct (strict_equals v id).
    + intros H. inversion H. right. exists [], x, r. split; [reflexivity|simpl; lia].
    + intros H. apply IH in H. destruct H as [H | (l1 & c & l2 & -> & ->)].
      * now left.
      * right. exists (x :: l1), c, l2. split; [reflexivity|simpl List.length; lia].
Qed.

Lemma delete_disk (p : string) (l : list json) (w : bool) :
  exists l', snd (delete_clientes p (mkDisk (Some (JArr l)) w))
             = mkDisk (Some (JArr l')) w
             /\ (l' = l \/ exists l1 c l2, l = (l1 ++ c :: l2)%list
                                         /\ l' = (l1 ++ l2)%list).
Proof.
  run_handler.
  cbn [archivoClientes JSON_parse as_array]. unfold findIndex.
  destruct (findIndex_from 0 (map JSON_parse l) (parseInt p)) as [k|e|] eqn:Hk;
    try (exists l; split; [reflexivity | now left]).
  destruct (findIndex_from_position _ _ _ _ Hk) as [-> | (l1 & c & l2 & -> & ->)].
  - exists l. split; [reflexivity | now left].
  - destruct (Z.eqb_spec (0 + Z.of_nat (List.length l1)) (-1)) as [E|_]; [lia|].
    cbn [negb]. rewrite splice_at.
    unfold guardarClientes, writeFile. cbn [writable].
    destruct w.
    + exists (l1 ++ l2)%list. split.
      * cbn [snd JSON_stringify]. now rewrite stringify_parse_items.
      * right. now exists l1, c, l2.
    + exists (l1 ++ c :: l2)%list. split; [reflexivity | now left].
Qed.

(** ** GET /clientes, and a file that does not load *)

Lemma get_disk (d : disk) : snd (get_clientes d) = d.
Proof.
  run_handler.
  destruct (archivoClientes d); reflexivity.
Qed.

Lemma get_returns_array (data : json) (w : bool) :
  get_clientes (mkDisk (Some data) w)
  = (Returns (mkResponse 200 data), mkDisk (Some data) w).
Proof.
  run_handler. unfold res_json. cbn [archivoClientes].
  now rewrite stringify_parse.
Qed.

(** With a file that cannot be read as a document every handler
    answers 500 and leaves the disk alone. *)
Lemma load_fails (w : bool) (body : value) (p : string) :
  let d := mkDisk None w in
  get_clientes d = (Returns (mkResponse 500 error_al_leer), d)
  /\ post_clientes body d = (Returns (mkResponse 500 error_al_guardar), d)
  /\ delete_clientes p d = (Returns (mkResponse 500 error_al_eliminar), d).
Proof. repeat split. Qed.

(** ** Identifier rules *)

Lemma identifiers_app (l1 l2 : list json) :
  identifiers (l1 ++ l2)%list = (identifiers l1 ++ identifiers l2)%list.
Proof. apply flat_map_app. Qed.

Lemma numbered_cons (c : json) (l : list json) :
  numbered (c :: l) <->
  (exists n, identifier c = Some (JNum n)) /\ numbered l.
Proof.
  unfold numbered, identifiers. cbn [map flat_map]. split.
  - destruct (identifier c) as [[| | n | | |]|] eqn:E; cbn [app map]; intros H;
      try (destruct (flat_map _ l); cbn [map] in H; discriminate).
    split; [eauto | congruence].
  - intros [[n ->] H]. cbn [app map]. now f_equal.
Qed.

Lemma numbered_app (l1 l2 : list json) :
  numbered (l1 ++ l2)%list <-> numbered l1 /\ numbered l2.
Proof.
  induction l1 as [|c r IH]; cbn [app].
  - split; [intros H; split; [reflexivity | assumption] | intros [_ H]; assumption].
  - rewrite !numbered_cons, IH. tauto.
Qed.

Lemma fold_max_below (m : Z) (r : list Z) (n : Z) :
  n < m -> Forall (fun x => x < m) r -> fold_left Z.max r n < m.
Proof.
  revert n. induction r as [|x r IH]; intros n Hn Hr; cbn [fold_left].
  - assumption.
  - inversion Hr; subst. apply IH; [lia | assumption].
Qed.

Lemma sorted_snoc (ns : list Z) (m : Z) :
  StronglySorted Z.lt (ns ++ [m])%list <->
  StronglySorted Z.lt ns /\ Forall (fun x => x < m) ns.
Proof.
  induction ns as [|x r IH]; cbn [app].
  - split; [intros _; split; constructor | intros _; repeat constructor].
  - split.
    + intros H. inversion H as [|? ? Hs Hf]; subst.
      apply IH in Hs. destruct Hs as [Hs Hm].
      apply Forall_app in Hf. destruct Hf as [Hf Hx].
      inversion Hx; subst.
      split; constructor; assumption.
    + intros [H Hm]. inversion H as [|? ? Hs Hf]; subst.
      inversion Hm; subst.
      constructor; [apply IH; split; assumption|].
      apply Forall_app. split; [assumption | repeat constructor; assumption].
Qed.

(** On a collection with increasing identifiers the two rules agree. *)
Lemma last_is_max (l : list json) (k : Z) :
  increasing l ->
  last_identifier_plus_one l = Some k ->
  k = max_identifier_plus_one l.
Proof.
  intros [Hn Hs]. unfold last_identifier_plus_one, max_identifier_plus_one.
  destruct l as [|c0 l0] using rev_ind.
  - cbn. congruence.
  - clear IHl0. rewrite rev_app_distr. cbn [rev app].
    rewrite identifiers_app in *.
    destruct (identifier c0) as [[| | n | | |]|] eqn:E; try discriminate.
    intros H. injection H as <-.
    unfold identifiers at 2. cbn [flat_map]. rewrite E. cbn [app].
    unfold identifiers at 2 in Hs. cbn [flat_map] in Hs. rewrite E in Hs.
    cbn [app] in Hs. apply sorted_snoc in Hs. destruct Hs as [_ Hlt].
    destruct (identifiers l0) as [|x r]; cbn [app]; [reflexivity|].
    rewrite fold_left_app. cbn [fold_left].
    inversion Hlt; subst.
    pose proof (fold_max_below n r x ltac:(assumption) ltac:(assumption)).
    lia.
Qed.

(** The identifier expression of line 47 on a parsed collection. *)
Lemma next_id_last_plus_one (l : list json) (k : Z) :
  last_identifier_plus_one l = Some k ->
  safe_integer (k - 1) ->
  next_id (map JSON_parse l) = Returns (VNum (Fin k)).
Proof.
  unfold last_identifier_plus_one.
  destruct l as [|c l0] using rev_ind.
  - cbn. intros H _. now injection H as <-.
  - clear IHl0. rewrite rev_app_distr. cbn [rev app].
    destruct c as [| | | | |oc]; cbn [identifier]; try discriminate.
    destruct (assoc "id" oc) as [[| | n | | |]|] eqn:E; try discriminate.
    intros H Hsafe. injection H as <-.
    rewrite map_app. cbn [map]. rewrite next_id_last.
    cbn [JSON_parse get_prop]. rewrite assoc_map, E. cbn [option_map JSON_parse].
    replace (n + 1 - 1) with n in Hsafe by lia.
    now apply plus_one_safe.
Qed.

(** ** Distinct and increasing identifiers *)

Lemma sorted_NoDup (ns : list Z) : StronglySorted Z.lt ns -> NoDup ns.
Proof.
  induction 1 as [|x r _ IH Hx]; constructor; auto.
  intros Hin. rewrite Forall_forall in Hx. specialize (Hx x Hin). lia.
Qed.

Lemma increasing_distinct (l : list json) : increasing l -> distinct l.
Proof.
  intros [Hn Hs]. unfold distinct. rewrite Hn.
  apply sorted_NoDup in Hs.
  induction Hs as [|x r Hx _ IH]; cbn [map]; constructor; auto.
  intros Hin. apply in_map_iff in Hin. destruct Hin as (y & Hy & Hin).
  injection Hy as ->. contradiction.
Qed.


Lemma sorted_remove (a b : list Z) (x : Z) :
  StronglySorted Z.lt (a ++ x :: b)%list -> StronglySorted Z.lt (a ++ b)%list.
Proof.
  induction a as [|y a IH]; cbn [app]; intros H; inversion H as [|? ? Hs Hf]; subst.
  - assumption.
  - constructor; [now apply IH|].
    apply Forall_app in Hf. destruct Hf as [Ha Hb]. inversion Hb; subst.
    apply Forall_app. now split.
Qed.

Lemma increasing_remove (l1 l2 : list json) (c : json) :
  increasing (l1 ++ c :: l2)%list -> increasing (l1 ++ l2)%list.
Proof.
  intros [Hn Hs]. split.
  - apply numbered_app in Hn. destruct Hn as [H1 H2].
    apply numbered_cons in H2. apply numbered_app. tauto.
  - rewrite identifiers_app in *.
    change (c :: l2) with ([c] ++ l2)%list in Hs.
    rewrite identifiers_app in Hs.
    unfold identifiers at 2 in Hs. cbn [flat_map] in Hs.
    destruct (identifier c) as [[| | n | | |]|]; cbn [app] in Hs;
      try assumption.
    now apply sorted_remove in Hs.
Qed.

Lemma increasing_append (l : list json) (o : list (string * json)) :
  increasing l ->
  Forall safe_integer (identifiers l) ->
  exists k, last_identifier_plus_one l = Some k
            /\ safe_integer (k - 1)
            /\ increasing (l ++ [JObj (assign "id" (JNum k) o)])%list.
Proof.
  intros [Hn Hs] Hsafe.
  assert (Hnew : forall k, identifier (JObj (assign "id" (JNum k) o)) = Some (JNum k)).
  { intros k. apply assoc_assign_same. }
  destruct l as [|c l0] using rev_ind.
  - exists 1. split; [reflexivity|]. split; [unfold safe_integer; lia|]. split.
    + cbn [app]. apply numbered_cons. split; [eauto | reflexivity].
    + cbn [app]. unfold identifiers. cbn [flat_map]. rewrite Hnew.
      repeat constructor.
  - clear IHl0.
    pose proof Hn as Hn'. apply numbered_app in Hn'. destruct Hn' as [Hn0 Hc].
    apply numbered_cons in Hc. destruct Hc as [[n Hc] _].
    assert (Hids : identifiers (l0 ++ [c])%list = (identifiers l0 ++ [n])%list).
    { rewrite identifiers_app. unfold identifiers at 2. cbn [flat_map].
      now rewrite Hc. }
    rewrite Hids in Hs, Hsafe.
    exists (n + 1). split; [|split; [|split]].
    + unfold last_identifier_plus_one. rewrite rev_app_distr. cbn [rev app].
      now rewrite Hc.
    + apply Forall_app in Hsafe. destruct Hsafe as [_ Hsafe].
      inversion Hsafe; subst. replace (n + 1 - 1) with n by lia. assumption.
    + apply numbered_app. split; [assumption|].
      apply numbered_cons. split; [eauto | reflexivity].
    + rewrite identifiers_app, Hids. unfold identifiers at 2. cbn [flat_map].
      rewrite Hnew. cbn [app].
      apply sorted_snoc. split; [assumption|].
      apply sorted_snoc in Hs. destruct Hs as [_ Hlt].
      apply Forall_app. split.
      * eapply Forall_impl; [|exact Hlt]. intros a Ha. cbn beta in *. lia.
      * repeat constructor. lia.
Qed.

(** ** The file and the collection kept in memory *)








Lemma serve_cons (r : request) (rs : list request) (d : disk) :
  snd (serve (r :: rs) d) = snd (serve rs (snd (handle r d))).
Proof.
  cbn [serve]. destruct (handle r d) as [o d']. cbn [snd].
  now destruct (serve rs d').
Qed.

(** ** The scenario of the specification *)

(** From the empty collection: create Ana, create Leo, delete 1,
    list. *)
Example scenario :
  serve [POST_clientes (Some (JObj [("nombre", JStr "Ana")]));
         POST_clientes (Some (JObj [("nombre", JStr "Leo")]));
         DELETE_clientes "1";
         GET_clientes]
        (mkDisk (Some (JArr [])) true)
  = ([Returns (mkResponse 201 (JObj [("nombre", JStr "Ana"); ("id", JNum 1)]));
      Returns (mkResponse 201 (JObj [("nombre", JStr "Leo"); ("id", JNum 2)]));
      Returns (mkResponse 200 (JObj [("nombre", JStr "Ana"); ("id", JNum 1)]));
      Returns (mkResponse 200 (JArr [JObj [("nombre", JStr "Leo"); ("id", JNum 2)]]))],
     mkDisk (Some (JArr [JObj [("nombre", JStr "Leo"); ("id", JNum 2)]])) true).
Proof. reflexivity. Qed.

(** ** Increasing identifiers along a run *)

Lemma identifiers_remove (l1 l2 : list json) (c : json) (P : Z -> Prop) :
  Forall P (identifiers (l1 ++ c :: l2)%list) ->
  Forall P (identifiers (l1 ++ l2)%list).
Proof.
  change (c :: l2) with ([c] ++ l2)%list.
  rewrite !identifiers_app, !Forall_app. tauto.
Qed.

(** One request keeps the identifiers increasing, and lets the
    greatest grow by one at most. *)
Lemma step_increasing (r : request) (l : list json) (w : bool) (b : Z) :
  0 < b < 2 ^ 53 ->
  increasing l ->
  Forall (fun n => - 2 ^ 53 < n < b) (identifiers l) ->
  exists l',
    snd (handle r (mkDisk (Some (JArr l)) w)) = mkDisk (Some (JArr l')) w
    /\ increasing l'
    /\ Forall (fun n => - 2 ^ 53 < n < b + 1) (identifiers l').
Proof.
  intros Hb Hi Hl.
  assert (Hl' : Forall (fun n => - 2 ^ 53 < n < b + 1) (identifiers l)).
  { eapply Forall_impl; [|exact Hl]. intros n Hn. cbn beta in *. lia. }
  assert (Hsafe : Forall safe_integer (identifiers l)).
  { eapply Forall_impl; [|exact Hl]. intros n Hn. unfold safe_integer.
    cbn beta in *. lia. }
  destruct r as [|body|p]; cbn [handle].
  - exists l. rewrite get_disk. auto.
  - exists (after_post body l w). rewrite post_disk. split; [reflexivity|].
    unfold after_post.
    destruct body as [[| | | | |o]|]; try (split; assumption).
    destruct (assoc "nombre" o) as [nombre|]; try (split; assumption).
    destruct (to_boolean (JSON_parse nombre) && w); try (split; assumption).
    destruct (increasing_append l o Hi Hsafe) as (k & Hk & Hks & Hinc).
    rewrite (next_id_last_plus_one l k Hk Hks). cbn [JSON_stringify].
    split; [exact Hinc|].
    rewrite identifiers_app. apply Forall_app. split; [assumption|].
    unfold identifiers. cbn [flat_map identifier].
    rewrite assoc_assign_same. cbn [app]. constructor; [|constructor].
    unfold last_identifier_plus_one in Hk.
    destruct l as [|c l0] using rev_ind.
    + cbn in Hk. injection Hk as <-. lia.
    + rewrite rev_app_distr in Hk. cbn [rev app] in Hk.
      rewrite identifiers_app in Hl. apply Forall_app in Hl.
      destruct Hl as [_ Hc]. unfold identifiers in Hc. cbn [flat_map] in Hc.
      destruct (identifier c) as [[| | n | | |]|]; try discriminate.
      injection Hk as <-. cbn [app] in Hc. inversion Hc; subst. lia.
  - destruct (delete_disk p l w) as (l' & Hd & [-> | (l1 & c & l2 & -> & ->)]).
    + exists l. auto.
    + exists (l1 ++ l2)%list. split; [assumption|]. split.
      * now apply increasing_remove in Hi.
      * now apply identifiers_remove in Hl'.
Qed.

(** From a collection with increasing identifiers, every run that does
    not exhaust the safe integers leaves a collection with increasing,
    hence pairwise-distinct, identifiers; on such collections the last
    identifier is the greatest. *)
Lemma served_identifiers_increasing (rs : list request) (l : list json)
      (w : bool) (b : Z) :
  0 < b ->
  b + Z.of_nat (List.length rs) <= 2 ^ 53 ->
  increasing l ->
  Forall (fun n => - 2 ^ 53 < n < b) (identifiers l) ->
  exists l',
    snd (serve rs (mkDisk (Some (JArr l)) w)) = mkDisk (Some (JArr l')) w
    /\ increasing l' /\ distinct l'.
Proof.
  revert l b. induction rs as [|r rs IH]; intros l b Hb Hlen Hi Hl.
  - exists l. repeat split; try apply Hi. now apply increasing_distinct.
  - cbn [List.length] in Hlen.
    destruct (step_increasing r l w b) as (l1 & Hd & Hi1 & Hl1);
      [lia | assumption | assumption |].
    destruct (IH l1 (b + 1)) as (l' & Hd' & Hi' & Hdis);
      [lia | lia | assumption | assumption |].
    exists l'. rewrite serve_cons, Hd. auto.
Qed.

(** ** The file and the mutations of a run *)



Lemma delete_throws (p : string) (l : list json) (w : bool) :
  findIndex_from 0 (map JSON_parse l) (parseInt p) = Throws TypeError ->
  delete_clientes p (mkDisk (Some (JArr l)) w)
  = (Returns (mkResponse 500 error_al_eliminar), mkDisk (Some (JArr l)) w).
Proof.
  intros H. run_handler.
  cbn [archivoClientes JSON_parse as_array]. unfold findIndex.
  now rewrite H.
Qed.




(** * The properties *)

(** C1 (as amended).  POST /clientes with a non-empty name, on a
    writable file that loads as the array [l]: the identifier given to
    the new customer is 1 when [l] is empty and otherwise the
    identifier of the last customer of [l] (a safe integer) plus one;
    that is the greatest identifier plus one whenever the identifiers
    of [l] are increasing. *)
Theorem post_assigns_last_plus_one (l : list json) (o : list (string * json))
        (s : string) (k : Z) :
  assoc "nombre" o = Some (JStr s) ->
  s <> "" ->
  last_identifier_plus_one l = Some k ->
  safe_integer (k - 1) ->
  let nuevo := JObj (assign "id" (JNum k) o) in
  post_clientes (JSON_parse (JObj o)) (mkDisk (Some (JArr l)) true)
  = (Returns (mkResponse 201 nuevo), mkDisk (Some (JArr (l ++ [nuevo])%list)) true)
  /\ identifier nuevo = Some (JNum k)
  /\ (increasing l -> k = max_identifier_plus_one l).
Proof.
  intros Hn Hs Hk Hsafe nuevo. repeat split.
  - rewrite (post_accepted l true o (JStr s) Hn (nonempty_truthy s Hs)).
    rewrite (next_id_last_plus_one l k Hk Hsafe). reflexivity.
  - apply assoc_assign_same.
  - intros Hi. now apply last_is_max.
Qed.

Lemma post_assigns_last_plus_one_witness :
  (assoc "nombre" eva = Some (JStr "Eva")
   /\ "Eva" <> ""
   /\ last_identifier_plus_one [JObj ana; JObj leo] = Some 3
   /\ safe_integer (3 - 1))
  /\ (post_clientes (JSON_parse (JObj eva))
        (mkDisk (Some (JArr [JObj ana; JObj leo])) true)
      = (Returns (mkResponse 201 (JObj (assign "id" (JNum 3) eva))),
         mkDisk (Some (JArr ([JObj ana; JObj leo]
                               ++ [JObj (assign "id" (JNum 3) eva)])%list)) true)
      /\ identifier (JObj (assign "id" (JNum 3) eva)) = Some (JNum 3)
      /\ (increasing [JObj ana; JObj leo]
          -> 3 = max_identifier_plus_one [JObj ana; JObj leo])).
Proof.
  assert (H1 : assoc "nombre" eva = Some (JStr "Eva")) by reflexivity.
  assert (H2 : "Eva" <> "") by discriminate.
  assert (H3 : last_identifier_plus_one [JObj ana; JObj leo] = Some 3)
    by reflexivity.
  assert (H4 : safe_integer (3 - 1)) by (unfold safe_integer; lia).
  split; [tauto|].
  exact (post_assigns_last_plus_one [JObj ana; JObj leo] eva "Eva" 3 H1 H2 H3 H4).
Defined.

(** C1 as stated fails: with the customers 5 and 2 on disk, in that
    order, the new customer gets 3, and the greatest identifier plus
    one is 6. *)
Lemma post_identifier_not_max_plus_one :
  post_clientes (JSON_parse (JObj eva)) (mkDisk (Some (JArr cinco_dos)) true)
  = (Returns (mkResponse 201 (JObj [("nombre", JStr "Eva"); ("id", JNum 3)])),
     mkDisk (Some (JArr (cinco_dos
                           ++ [JObj [("nombre", JStr "Eva"); ("id", JNum 3)]])%list))
            true)
  /\ max_identifier_plus_one cinco_dos = 6.
Proof. split; reflexivity. Qed.






(** C4.  POST /clientes with a body in which reading [nombre] gives
    [undefined] (the field is missing), on a disk whose file loads:
    the response is 400 with [{error: "Falta el campo 'nombre'"}], and
    the disk is as before, writable or not, so nothing was saved. *)
Theorem post_missing_name_rejected (d : disk) (data : json) (body : value) :
  archivoClientes d = Some data ->
  get_prop body "nombre" = Returns VUndefined ->
  post_clientes body d = (Returns (mkResponse 400 falta_nombre), d).
Proof.
  intros Hd Hn. now apply (post_rejected d data body VUndefined).
Qed.

Lemma post_missing_name_rejected_witness :
  (archivoClientes (mkDisk (Some (JArr [JObj ana])) false) = Some (JArr [JObj ana])
   /\ get_prop (JSON_parse (JObj sin_nombre)) "nombre" = Returns VUndefined)
  /\ post_clientes (JSON_parse (JObj sin_nombre))
       (mkDisk (Some (JArr [JObj ana])) false)
     = (Returns (mkResponse 400 falta_nombre),
        mkDisk (Some (JArr [JObj ana])) false).
Proof.
  split; [split; reflexivity|].
  exact (post_missing_name_rejected (mkDisk (Some (JArr [JObj ana])) false)
           (JArr [JObj ana]) (JSON_parse (JObj sin_nombre)) eq_refl eq_refl).
Defined.

(** C5.  POST /clientes with a body whose [nombre] is a non-empty
    string, on a file that loads as the array [l] and can be written,
    with [id] the value that line 47 computes from [l]: the new
    customer is the body with [id] assigned, it is put after the
    records of [l], which stay as they are, the extended array is what
    the file holds afterwards, and the response is 201 with the new
    customer, identifier included. *)
Theorem post_valid_appends (l : list json) (o : list (string * json))
        (s : string) (id : value) :
  assoc "nombre" o = Some (JStr s) ->
  s <> "" ->
  next_id (map JSON_parse l) = Returns id ->
  let nuevo := JObj (assign "id" (JSON_stringify id) o) in
  post_clientes (JSON_parse (JObj o)) (mkDisk (Some (JArr l)) true)
  = (Returns (mkResponse 201 nuevo), mkDisk (Some (JArr (l ++ [nuevo])%list)) true)
  /\ identifier nuevo = Some (JSON_stringify id).
Proof.
  intros Hn Hs Hid nuevo. split.
  - rewrite (post_accepted l true o (JStr s) Hn (nonempty_truthy s Hs)), Hid.
    reflexivity.
  - apply assoc_assign_same.
Qed.

Lemma post_valid_appends_witness :
  (assoc "nombre" eva = Some (JStr "Eva")
   /\ "Eva" <> ""
   /\ next_id (map JSON_parse [JObj ana; JObj leo]) = Returns (VNum (Fin 3)))
  /\ (post_clientes (JSON_parse (JObj eva))
        (mkDisk (Some (JArr [JObj ana; JObj leo])) true)
      = (Returns (mkResponse 201
                    (JObj (assign "id" (JSON_stringify (VNum (Fin 3))) eva))),
         mkDisk (Some (JArr ([JObj ana; JObj leo]
                               ++ [JObj (assign "id"
                                           (JSON_stringify (VNum (Fin 3))) eva)])%list))
                true)
      /\ identifier (JObj (assign "id" (JSON_stringify (VNum (Fin 3))) eva))
         = Some (JSON_stringify (VNum (Fin 3)))).
Proof.
  assert (H1 : assoc "nombre" eva = Some (JStr "Eva")) by reflexivity.
  assert (H2 : "Eva" <> "") by discriminate.
  assert (H3 : next_id (map JSON_parse [JObj ana; JObj leo])
               = Returns (VNum (Fin 3))) by reflexivity.
  split; [tauto|].
  exact (post_valid_appends [JObj ana; JObj leo] eva "Eva" (VNum (Fin 3))
           H1 H2 H3).
Defined.

(** C6.  DELETE /clientes/:id on a writable file holding the customers
    [l], when the parsed identifier is the identifier of at least one
    of them: the array splits at the first such customer [c], the file
    afterwards holds the others in their order, and the response is
    200 with [c]. *)
Theorem delete_existing_removes_first (p : string)
        (l : list (list (string * json))) :
  Exists (fun c => has_identifier (parseInt p) (JObj c) = true) l ->
  exists l1 c l2,
    l = (l1 ++ c :: l2)%list
    /\ Forall (fun c' => has_identifier (parseInt p) (JObj c') = false) l1
    /\ has_identifier (parseInt p) (JObj c) = true
    /\ delete_clientes p (mkDisk (Some (JArr (map JObj l))) true)
       = (Returns (mkResponse 200 (JObj c)),
          mkDisk (Some (JArr (map JObj (l1 ++ l2)%list))) true).
Proof.
  induction l as [|x r IH]; intros H.
  - inversion H.
  - destruct (has_identifier (parseInt p) (JObj x)) eqn:Hx.
    + exists [], x, r. repeat split; auto.
      apply (delete_found p [] (map JObj r) (JObj x) true); auto.
    + assert (Hr : Exists (fun c => has_identifier (parseInt p) (JObj c) = true) r).
      { inversion H; subst; [congruence | assumption]. }
      destruct (IH Hr) as (l1 & c & l2 & -> & H1 & Hc & _).
      exists (x :: l1), c, l2. repeat split; auto.
      rewrite <- !app_comm_cons, map_cons, map_app, map_cons.
      rewrite app_comm_cons.
      rewrite (delete_found p (JObj x :: map JObj l1) (map JObj l2) (JObj c) true);
        auto.
      * now rewrite map_cons, map_app.
      * constructor; [split; [discriminate | assumption]|].
        apply Forall_map. eapply Forall_impl; [|exact H1].
        intros a Ha. split; [discriminate | exact Ha].
Qed.

Lemma delete_existing_removes_first_witness :
  Exists (fun c => has_identifier (parseInt "2") (JObj c) = true)
         [ana; leo; leo_bis]
  /\ exists l1 c l2,
       [ana; leo; leo_bis] = (l1 ++ c :: l2)%list
       /\ Forall (fun c' => has_identifier (parseInt "2") (JObj c') = false) l1
       /\ has_identifier (parseInt "2") (JObj c) = true
       /\ delete_clientes "2"
            (mkDisk (Some (JArr (map JObj [ana; leo; leo_bis]))) true)
          = (Returns (mkResponse 200 (JObj c)),
             mkDisk (Some (JArr (map JObj (l1 ++ l2)%list))) true).
Proof.
  assert (H : Exists (fun c => has_identifier (parseInt "2") (JObj c) = true)
                     [ana; leo; leo_bis]).
  { apply Exists_cons_tl, Exists_cons_hd. reflexivity. }
  split; [exact H|].
  exact (delete_existing_removes_first "2" [ana; leo; leo_bis] H).
Defined.

(** C7.  DELETE /clientes/:id on a file holding the customers [l],
    none of which has the parsed identifier: the response is 404 with
    [{mensaje: "Cliente no encontrado"}], and the disk is as before,
    writable or not, so nothing was saved. *)
Theorem delete_unknown_not_found (p : string)
        (l : list (list (string * json))) (w : bool) :
  Forall (fun c => has_identifier (parseInt p) (JObj c) = false) l ->
  delete_clientes p (mkDisk (Some (JArr (map JObj l))) w)
  = (Returns (mkResponse 404 no_encontrado),
     mkDisk (Some (JArr (map JObj l))) w).
Proof.
  intros H. apply delete_not_found.
  apply Forall_map. eapply Forall_impl; [|exact H].
  intros c Hc. split; [discriminate | exact Hc].
Qed.

Lemma delete_unknown_not_found_witness :
  Forall (fun c => has_identifier (parseInt "7") (JObj c) = false) [ana; leo]
  /\ delete_clientes "7" (mkDisk (Some (JArr (map JObj [ana; leo]))) false)
     = (Returns (mkResponse 404 no_encontrado),
        mkDisk (Some (JArr (map JObj [ana; leo]))) false).
Proof.
  assert (H : Forall (fun c => has_identifier (parseInt "7") (JObj c) = false)
                     [ana; leo]) by (repeat constructor).
  split; [exact H|].
  exact (delete_unknown_not_found "7" [ana; leo] false H).
Defined.

(** C8 (as amended).  DELETE /clientes/:id with a parameter that, after
    leading white space and one optional sign, does not go on with a
    decimal digit: [parseInt] yields [NaN], the comparison [===] with
    it is false for every value, and for every collection of customers
    the response is 404 and the disk is as before. *)
Theorem delete_unparsable_not_found (p : string)
        (l : list (list (string * json))) (w : bool) :
  begins_with_digit p = false ->
  parseInt p = NaN
  /\ (forall v : value, strict_equals v (parseInt p) = false)
  /\ delete_clientes p (mkDisk (Some (JArr (map JObj l))) w)
     = (Returns (mkResponse 404 no_encontrado),
        mkDisk (Some (JArr (map JObj l))) w).
Proof.
  intros H. apply parseInt_no_digit in H. rewrite H.
  assert (Hv : forall v : value, strict_equals v NaN = false).
  { intros [| | b | [z|s|] | s | a | o]; reflexivity. }
  repeat split; auto.
  apply delete_not_found. rewrite H.
  apply Forall_map, Forall_forall. intros c _. split; [discriminate|].
  unfold has_identifier. destruct (identifier (JObj c)) as [[| | | | |]|]; reflexivity.
Qed.

Lemma delete_unparsable_not_found_witness :
  begins_with_digit "abc" = false
  /\ (parseInt "abc" = NaN
      /\ (forall v : value, strict_equals v (parseInt "abc") = false)
      /\ delete_clientes "abc" (mkDisk (Some (JArr (map JObj [ana; leo]))) true)
         = (Returns (mkResponse 404 no_encontrado),
            mkDisk (Some (JArr (map JObj [ana; leo]))) true)).
Proof.
  split; [reflexivity|].
  exact (delete_unparsable_not_found "abc" [ana; leo] true eq_refl).
Defined.

(** C8 as stated fails: the parameter 12abc is not numeric, yet
    [parseInt] reads its leading digits, the result 12 is the
    identifier of a customer, and that customer is deleted with
    status 200. *)
Lemma non_numeric_parameter_deletes :
  numeric "12abc" = false
  /\ parseInt "12abc" = Fin 12
  /\ delete_clientes "12abc" (mkDisk (Some (JArr [JObj ana; doce])) true)
     = (Returns (mkResponse 200 doce), mkDisk (Some (JArr [JObj ana])) true).
Proof. repeat split. Qed.


(** C10.  POST /clientes with a body that already has an [id] member
    (and a non-empty name), on a writable file that loads as [l], with
    [id] the value line 47 computes from [l] alone: the customer
    stored and returned has the computed identifier in the place of
    the client's, the other members and their order are those of the
    body, and whatever value the client had sent as [id] the outcome
    is the same. *)
Theorem post_overwrites_client_id (l : list json) (o : list (string * json))
        (s : string) (chosen : json) (id : value) :
  assoc "nombre" o = Some (JStr s) ->
  s <> "" ->
  assoc "id" o = Some chosen ->
  next_id (map JSON_parse l) = Returns id ->
  let nuevo := assign "id" (JSON_stringify id) o in
  let outcome := (Returns (mkResponse 201 (JObj nuevo)),
                  mkDisk (Some (JArr (l ++ [JObj nuevo])%list)) true) in
  post_clientes (JSON_parse (JObj o)) (mkDisk (Some (JArr l)) true) = outcome
  /\ assoc "id" nuevo = Some (JSON_stringify id)
  /\ map fst nuevo = map fst o
  /\ (forall k, k <> "id" -> assoc k nuevo = assoc k o)
  /\ (forall other : json,
        post_clientes (JSON_parse (JObj (assign "id" other o)))
          (mkDisk (Some (JArr l)) true) = outcome).
Proof.
  intros Hn Hs Hc Hid nuevo outcome.
  assert (Ht := nonempty_truthy s Hs).
  repeat split.
  - rewrite (post_accepted l true o (JStr s) Hn Ht), Hid. reflexivity.
  - apply assoc_assign_same.
  - eapply assign_keeps_keys; eauto.
  - intros k Hk. now apply assoc_assign_other.
  - intros other.
    rewrite (post_accepted l true (assign "id" other o) (JStr s)); auto.
    + rewrite Hid. cbv zeta. rewrite assign_assign. reflexivity.
    + rewrite assoc_assign_other; [assumption | discriminate].
Qed.

Lemma post_overwrites_client_id_witness :
  (assoc "nombre" eva_99 = Some (JStr "Eva")
   /\ "Eva" <> ""
   /\ assoc "id" eva_99 = Some (JNum 99)
   /\ next_id (map JSON_parse [JObj ana; JObj leo]) = Returns (VNum (Fin 3)))
  /\ (post_clientes (JSON_parse (JObj eva_99))
        (mkDisk (Some (JArr [JObj ana; JObj leo])) true)
      = (Returns (mkResponse 201 (JObj [("id", JNum 3); ("nombre", JStr "Eva")])),
         mkDisk (Some (JArr [JObj ana; JObj leo;
                             JObj [("id", JNum 3); ("nombre", JStr "Eva")]])) true)
      /\ assoc "id" [("id", JNum 3); ("nombre", JStr "Eva")] = Some (JNum 3)
      /\ map fst [("id", JNum 3); ("nombre", JStr "Eva")] = map fst eva_99
      /\ (forall k, k <> "id" ->
            assoc k [("id", JNum 3); ("nombre", JStr "Eva")] = assoc k eva_99)
      /\ (forall other : json,
            post_clientes (JSON_parse (JObj (assign "id" other eva_99)))
              (mkDisk (Some (JArr [JObj ana; JObj leo])) true)
            = (Returns (mkResponse 201 (JObj [("id", JNum 3); ("nombre", JStr "Eva")])),
               mkDisk (Some (JArr [JObj ana; JObj leo;
                                   JObj [("id", JNum 3); ("nombre", JStr "Eva")]]))
                      true))).
Proof.
  assert (H1 : assoc "nombre" eva_99 = Some (JStr "Eva")) by reflexivity.
  assert (H2 : "Eva" <> "") by discriminate.
  assert (H3 : assoc "id" eva_99 = Some (JNum 99)) by reflexivity.
  assert (H4 : next_id (map JSON_parse [JObj ana; JObj leo])
               = Returns (VNum (Fin 3))) by reflexivity.
  split; [tauto|].
  exact (post_overwrites_client_id [JObj ana; JObj leo] eva_99 "Eva" (JNum 99)
           (VNum (Fin 3)) H1 H2 H3 H4).
Defined.

(** * Further properties of the code *)

(** ** Every disk, every request *)

Lemma handle_unreadable (r : request) (w : bool) :
  handle r (mkDisk None w)
  = (Returns (mkResponse 500 (error_of r)), mkDisk None w).
Proof. destruct r; reflexivity. Qed.



Lemma delete_no_array (p : string) (d : disk) :
  (forall l, archivoClientes d <> Some (JArr l)) ->
  delete_clientes p d = (Returns (mkResponse 500 error_al_eliminar), d).
Proof.
  intros Hd. destruct d as [[data|] w]; cbn [archivoClientes] in Hd.
  - destruct data; try reflexivity. now contradiction (Hd items).
  - reflexivity.
Qed.





(** X1.  With the file missing, unreadable or not JSON, the service
    stays down: every request of every run is answered 500 with the
    message of its route, and nothing is ever written, so the file is
    never created or repaired. *)
Theorem unreadable_file_stays (rs : list request) (w : bool) :
  serve rs (mkDisk None w)
  = (map (fun r => Returns (mkResponse 500 (error_of r))) rs, mkDisk None w).
Proof.
  induction rs as [|r rs IH]; [reflexivity|].
  cbn [serve map]. rewrite handle_unreadable, IH. reflexivity.
Qed.




(** ** Validation of the name *)

(** X4.  A name that is present but empty is refused like a missing
    one: with [nombre] the empty string, [null], [false] or 0 the
    answer is 400 and the disk is as before, writable or not. *)
Theorem post_empty_name_rejected (d : disk) (data : json)
        (o : list (string * json)) (v : json) :
  archivoClientes d = Some data ->
  assoc "nombre" o = Some v ->
  v = JStr "" \/ v = JNull \/ v = JBool false \/ v = JNum 0 ->
  post_clientes (JSON_parse (JObj o)) d
  = (Returns (mkResponse 400 falta_nombre), d).
Proof.
  intros Hd Hn Hv.
  apply (post_rejected d data _ (JSON_parse v)); auto.
  - cbn [JSON_parse get_prop]. now rewrite assoc_map, Hn.
  - destruct Hv as [-> | [-> | [-> | ->]]]; reflexivity.
Qed.

Lemma post_empty_name_rejected_witness :
  (archivoClientes (mkDisk (Some (JArr [JObj ana])) true) = Some (JArr [JObj ana])
   /\ assoc "nombre" nombre_vacio = Some (JStr "")
   /\ (JStr "" = JStr "" \/ JStr "" = JNull \/ JStr "" = JBool false
       \/ JStr "" = JNum 0))
  /\ post_clientes (JSON_parse (JObj nombre_vacio))
       (mkDisk (Some (JArr [JObj ana])) true)
     = (Returns (mkResponse 400 falta_nombre),
        mkDisk (Some (JArr [JObj ana])) true).
Proof.
  split; [split; [reflexivity | split; [reflexivity | left; reflexivity]]|].
  exact (post_empty_name_rejected (mkDisk (Some (JArr [JObj ana])) true)
           (JArr [JObj ana]) nombre_vacio (JStr "") eq_refl eq_refl
           (or_introl eq_refl)).
Defined.

(** X5.  The name is never checked to be a string: a body whose
    [nombre] is [true], a number other than 0, an array or an object
    is accepted like one with a text name, stored after the records
    on disk and returned with status 201. *)
Theorem post_any_truthy_name_accepted (l : list json) (o : list (string * json))
        (v : json) (id : value) :
  assoc "nombre" o = Some v ->
  v = JBool true \/ (exists n, n <> 0 /\ v = JNum n)
  \/ (exists a, v = JArr a) \/ (exists m, v = JObj m) ->
  next_id (map JSON_parse l) = Returns id ->
  post_clientes (JSON_parse (JObj o)) (mkDisk (Some (JArr l)) true)
  = (Returns (mkResponse 201 (JObj (assign "id" (JSON_stringify id) o))),
     mkDisk (Some (JArr (l ++ [JObj (assign "id" (JSON_stringify id) o)])%list))
            true).
Proof.
  intros Hn Hv Hid.
  assert (Ht : to_boolean (JSON_parse v) = true).
  { destruct Hv as [-> | [(n & Hn0 & ->) | [(a & ->) | (m & ->)]]];
      try reflexivity.
    cbn. apply Z.eqb_neq in Hn0. now rewrite Hn0. }
  rewrite (post_accepted l true o v Hn Ht), Hid. reflexivity.
Qed.

Lemma post_any_truthy_name_accepted_witness :
  (assoc "nombre" nombre_numero = Some (JNum 7)
   /\ (JNum 7 = JBool true \/ (exists n, n <> 0 /\ JNum 7 = JNum n)
       \/ (exists a, JNum 7 = JArr a) \/ (exists m, JNum 7 = JObj m))
   /\ next_id (map JSON_parse [JObj ana]) = Returns (VNum (Fin 2)))
  /\ post_clientes (JSON_parse (JObj nombre_numero))
       (mkDisk (Some (JArr [JObj ana])) true)
     = (Returns (mkResponse 201
                   (JObj (assign "id" (JSON_stringify (VNum (Fin 2)))
                            nombre_numero))),
        mkDisk (Some (JArr ([JObj ana]
                              ++ [JObj (assign "id"
                                          (JSON_stringify (VNum (Fin 2)))
                                          nombre_numero)])%list)) true).
Proof.
  assert (H2 : JNum 7 = JBool true \/ (exists n, n <> 0 /\ JNum 7 = JNum n)
               \/ (exists a, JNum 7 = JArr a) \/ (exists m, JNum 7 = JObj m)).
  { right. left. exists 7. split; [discriminate | reflexivity]. }
  split; [split; [reflexivity | split; [exact H2 | reflexivity]]|].
  exact (post_any_truthy_name_accepted [JObj ana] nombre_numero (JNum 7)
           (VNum (Fin 2)) eq_refl H2 eq_refl).
Defined.

(** ** Files that do not hold a collection of customers *)

(** X6.  When the file holds a JSON document that is not an array,
    GET still answers 200 with that document, while an accepted create
    and every delete answer 500 and leave the file as it is. *)
Theorem not_an_array (data : json) (w : bool) (o : list (string * json))
        (nombre : json) (p : string) :
  (forall l, data <> JArr l) ->
  assoc "nombre" o = Some nombre ->
  to_boolean (JSON_parse nombre) = true ->
  let d := mkDisk (Some data) w in
  get_clientes d = (Returns (mkResponse 200 data), d)
  /\ post_clientes (JSON_parse (JObj o)) d
     = (Returns (mkResponse 500 error_al_guardar), d)
  /\ delete_clientes p d = (Returns (mkResponse 500 error_al_eliminar), d).
Proof.
  intros Hd Hn Hb d. split; [apply get_returns_array|]. split.
  - subst d. run_handler. cbn [archivoClientes JSON_parse get_prop].
    rewrite assoc_map, Hn. cbn [option_map]. rewrite Hb. cbn [negb].
    destruct data; try reflexivity. now contradiction (Hd items).
  - apply delete_no_array. intros l H. cbn in H. injection H as H.
    exact (Hd l H).
Qed.

Lemma not_an_array_witness :
  ((forall l, JObj [] <> JArr l)
   /\ assoc "nombre" eva = Some (JStr "Eva")
   /\ to_boolean (JSON_parse (JStr "Eva")) = true)
  /\ (get_clientes (mkDisk (Some (JObj [])) true)
      = (Returns (mkResponse 200 (JObj [])), mkDisk (Some (JObj [])) true)
      /\ post_clientes (JSON_parse (JObj eva)) (mkDisk (Some (JObj [])) true)
         = (Returns (mkResponse 500 error_al_guardar),
            mkDisk (Some (JObj [])) true)
      /\ delete_clientes "1" (mkDisk (Some (JObj [])) true)
         = (Returns (mkResponse 500 error_al_eliminar),
            mkDisk (Some (JObj [])) true)).
Proof.
  assert (H1 : forall l, JObj [] <> JArr l) by (intros l; discriminate).
  split; [split; [exact H1 | split; reflexivity]|].
  exact (not_an_array (JObj []) true eva (JStr "Eva") "1" H1 eq_refl eq_refl).
Defined.

Lemma findIndex_from_null (id : number) (l1 l2 : list json) (i : Z) :
  Forall (fun c => c <> JNull /\ has_identifier id c = false) l1 ->
  findIndex_from i (map JSON_parse (l1 ++ JNull :: l2)%list) id
  = Throws TypeError.
Proof.
  intros H. revert i. induction H as [|x r [Hx Hm] _ IH]; intros i.
  - reflexivity.
  - cbn [app map findIndex_from].
    destruct (read_identifier id x Hx) as (v & Hv & Hs).
    now rewrite Hv, Hs, Hm, IH.
Qed.

(** X7.  A [null] item in the array breaks the requests that reach
    it: a delete that meets [null] before any customer with the parsed
    identifier answers 500 and removes nothing, even when a later
    customer has that identifier; an accepted create answers 500 when
    the last item is [null]. *)
Theorem null_item_answers_500 (p : string) (l1 l2 l : list json) (w : bool)
        (o : list (string * json)) (nombre : json) :
  Forall (fun c => c <> JNull /\ has_identifier (parseInt p) c = false) l1 ->
  assoc "nombre" o = Some nombre ->
  to_boolean (JSON_parse nombre) = true ->
  delete_clientes p (mkDisk (Some (JArr (l1 ++ JNull :: l2)%list)) w)
  = (Returns (mkResponse 500 error_al_eliminar),
     mkDisk (Some (JArr (l1 ++ JNull :: l2)%list)) w)
  /\ post_clientes (JSON_parse (JObj o))
       (mkDisk (Some (JArr (l ++ [JNull])%list)) w)
     = (Returns (mkResponse 500 error_al_guardar),
        mkDisk (Some (JArr (l ++ [JNull])%list)) w).
Proof.
  intros H Hn Hb. split.
  - apply delete_throws. now apply findIndex_from_null.
  - rewrite (post_accepted _ w o nombre Hn Hb).
    rewrite map_app. cbn [map]. now rewrite next_id_last.
Qed.

Lemma null_item_answers_500_witness :
  (Forall (fun c => c <> JNull /\ has_identifier (parseInt "2") c = false)
          [JObj ana]
   /\ assoc "nombre" eva = Some (JStr "Eva")
   /\ to_boolean (JSON_parse (JStr "Eva")) = true)
  /\ (delete_clientes "2"
        (mkDisk (Some (JArr ([JObj ana] ++ JNull :: [JObj leo])%list)) true)
      = (Returns (mkResponse 500 error_al_eliminar),
         mkDisk (Some (JArr ([JObj ana] ++ JNull :: [JObj leo])%list)) true)
      /\ post_clientes (JSON_parse (JObj eva))
           (mkDisk (Some (JArr ([JObj leo] ++ [JNull])%list)) true)
         = (Returns (mkResponse 500 error_al_guardar),
            mkDisk (Some (JArr ([JObj leo] ++ [JNull])%list)) true)).
Proof.
  assert (H1 : Forall (fun c => c <> JNull
                                /\ has_identifier (parseInt "2") c = false)
                      [JObj ana]).
  { constructor; [split; [discriminate | reflexivity] | constructor]. }
  split; [split; [exact H1 | split; reflexivity]|].
  exact (null_item_answers_500 "2" [JObj ana] [JObj leo] [JObj leo] true eva
           (JStr "Eva") H1 eq_refl eq_refl).
Defined.

(** ** A file that cannot be written *)

(** X8.  When the write fails, the mutation made in memory is
    reported as a server error: an accepted create answers 500 with
    the create message, and a delete that found its customer answers
    500 with the delete message. *)
Theorem failed_write_answers_500 (p : string) (l1 l2 : list json) (c : json)
        (o : list (string * json)) (nombre : json) (id : value) :
  Forall (fun c => c <> JNull /\ has_identifier (parseInt p) c = false) l1 ->
  has_identifier (parseInt p) c = true ->
  assoc "nombre" o = Some nombre ->
  to_boolean (JSON_parse nombre) = true ->
  next_id (map JSON_parse (l1 ++ c :: l2)%list) = Returns id ->
  let d := mkDisk (Some (JArr (l1 ++ c :: l2)%list)) false in
  fst (post_clientes (JSON_parse (JObj o)) d)
  = Returns (mkResponse 500 error_al_guardar)
  /\ fst (delete_clientes p d) = Returns (mkResponse 500 error_al_eliminar).
Proof.
  intros H Hc Hn Hb Hid d. subst d. split.
  - rewrite (post_accepted _ false o nombre Hn Hb), Hid. reflexivity.
  - now rewrite delete_found.
Qed.

Lemma failed_write_answers_500_witness :
  (Forall (fun c => c <> JNull /\ has_identifier (parseInt "2") c = false)
          [JObj ana]
   /\ has_identifier (parseInt "2") (JObj leo) = true
   /\ assoc "nombre" eva = Some (JStr "Eva")
   /\ to_boolean (JSON_parse (JStr "Eva")) = true
   /\ next_id (map JSON_parse ([JObj ana] ++ JObj leo :: [])%list)
      = Returns (VNum (Fin 3)))
  /\ (fst (post_clientes (JSON_parse (JObj eva))
             (mkDisk (Some (JArr ([JObj ana] ++ JObj leo :: [])%list)) false))
      = Returns (mkResponse 500 error_al_guardar)
      /\ fst (delete_clientes "2"
                (mkDisk (Some (JArr ([JObj ana] ++ JObj leo :: [])%list)) false))
         = Returns (mkResponse 500 error_al_eliminar)).
Proof.
  assert (H1 : Forall (fun c => c <> JNull
                                /\ has_identifier (parseInt "2") c = false)
                      [JObj ana]).
  { constructor; [split; [discriminate | reflexivity] | constructor]. }
  split; [split; [exact H1 | repeat split]|].
  exact (failed_write_answers_500 "2" [JObj ana] [] (JObj leo) eva (JStr "Eva")
           (VNum (Fin 3)) H1 eq_refl eq_refl eq_refl eq_refl).
Defined.

(** ** How requests compose *)

Lemma serve_two (r1 r2 : request) (d d1 d2 : disk) (o1 o2 : outcome response) :
  handle r1 d = (o1, d1) ->
  handle r2 d1 = (o2, d2) ->
  serve [r1; r2] d = ([o1; o2], d2).
Proof. intros H1 H2. cbn [serve]. now rewrite H1, H2. Qed.

Lemma no_match_objects (id : number) (l : list (list (string * json))) :
  Forall (fun c => has_identifier id (JObj c) = false) l ->
  Forall (fun c => c <> JNull /\ has_identifier id c = false) (map JObj l).
Proof.
  intros H. apply Forall_map. eapply Forall_impl; [|exact H].
  intros c Hc. split; [discriminate | exact Hc].
Qed.

Lemma post_last_plus_one (l : list json) (o : list (string * json))
      (s : string) (k : Z) :
  assoc "nombre" o = Some (JStr s) ->
  s <> "" ->
  last_identifier_plus_one l = Some k ->
  safe_integer (k - 1) ->
  post_clientes (JSON_parse (JObj o)) (mkDisk (Some (JArr l)) true)
  = (Returns (mkResponse 201 (JObj (assign "id" (JNum k) o))),
     mkDisk (Some (JArr (l ++ [JObj (assign "id" (JNum k) o)])%list)) true).
Proof.
  intros Hn Hs Hk Hsafe.
  rewrite (post_accepted l true o (JStr s) Hn (nonempty_truthy s Hs)).
  now rewrite (next_id_last_plus_one l k Hk Hsafe).
Qed.

Lemma last_identifier_snoc (l : list json) (o : list (string * json)) (k : Z) :
  last_identifier_plus_one (l ++ [JObj (assign "id" (JNum k) o)])%list
  = Some (k + 1).
Proof.
  unfold last_identifier_plus_one. rewrite rev_app_distr.
  cbn [rev app identifier]. now rewrite assoc_assign_same.
Qed.

(** X9.  Create, then delete by the identifier that the create
    returned: when no customer on disk already carries that
    identifier, the delete returns the customer just created and the
    file is back to what it held before the two requests. *)
Theorem create_then_delete_restores (l : list (list (string * json)))
        (o : list (string * json)) (s p : string) (k : Z) :
  assoc "nombre" o = Some (JStr s) ->
  s <> "" ->
  last_identifier_plus_one (map JObj l) = Some k ->
  safe_integer (k - 1) ->
  parseInt p = Fin k ->
  Forall (fun c => has_identifier (Fin k) (JObj c) = false) l ->
  let nuevo := JObj (assign "id" (JNum k) o) in
  serve [POST_clientes (Some (JObj o)); DELETE_clientes p]
        (mkDisk (Some (JArr (map JObj l))) true)
  = ([Returns (mkResponse 201 nuevo); Returns (mkResponse 200 nuevo)],
     mkDisk (Some (JArr (map JObj l))) true).
Proof.
  intros Hn Hs Hk Hsafe Hp Hl nuevo. subst nuevo.
  eapply serve_two.
  - cbn [handle req_body]. now apply (post_last_plus_one _ o s k).
  - cbn [handle].
    rewrite (delete_found p (map JObj l) [] (JObj (assign "id" (JNum k) o)) true).
    + now rewrite app_nil_r.
    + rewrite Hp. now apply no_match_objects.
    + rewrite Hp. unfold has_identifier. cbn [identifier].
      rewrite assoc_assign_same. apply Z.eqb_refl.
Qed.

Lemma create_then_delete_restores_witness :
  (assoc "nombre" eva = Some (JStr "Eva")
   /\ "Eva" <> ""
   /\ last_identifier_plus_one (map JObj [ana; leo]) = Some 3
   /\ safe_integer (3 - 1)
   /\ parseInt "3" = Fin 3
   /\ Forall (fun c => has_identifier (Fin 3) (JObj c) = false) [ana; leo])
  /\ serve [POST_clientes (Some (JObj eva)); DELETE_clientes "3"]
           (mkDisk (Some (JArr (map JObj [ana; leo]))) true)
     = ([Returns (mkResponse 201 (JObj (assign "id" (JNum 3) eva)));
         Returns (mkResponse 200 (JObj (assign "id" (JNum 3) eva)))],
        mkDisk (Some (JArr (map JObj [ana; leo]))) true).
Proof.
  assert (H2 : "Eva" <> "") by discriminate.
  assert (H4 : safe_integer (3 - 1)) by (unfold safe_integer; lia).
  assert (H6 : Forall (fun c => has_identifier (Fin 3) (JObj c) = false)
                      [ana; leo]) by (repeat constructor).
  split; [repeat split; assumption|].
  exact (create_then_delete_restores [ana; leo] eva "Eva" "3" 3
           eq_refl H2 eq_refl H4 eq_refl H6).
Defined.



(** X11.  Two creates in a row get consecutive identifiers, and
    nothing compares the names: the same body sent twice is stored
    twice, as two customers that differ in the identifier only. *)
Theorem two_creates_consecutive (l : list json) (o1 o2 : list (string * json))
        (s1 s2 : string) (k : Z) :
  assoc "nombre" o1 = Some (JStr s1) ->
  s1 <> "" ->
  assoc "nombre" o2 = Some (JStr s2) ->
  s2 <> "" ->
  last_identifier_plus_one l = Some k ->
  safe_integer (k - 1) ->
  safe_integer k ->
  let n1 := JObj (assign "id" (JNum k) o1) in
  let n2 := JObj (assign "id" (JNum (k + 1)) o2) in
  serve [POST_clientes (Some (JObj o1)); POST_clientes (Some (JObj o2))]
        (mkDisk (Some (JArr l)) true)
  = ([Returns (mkResponse 201 n1); Returns (mkResponse 201 n2)],
     mkDisk (Some (JArr (l ++ [n1; n2])%list)) true).
Proof.
  intros Hn1 Hs1 Hn2 Hs2 Hk Hsafe Hsafe' n1 n2. subst n1 n2.
  eapply serve_two.
  - cbn [handle req_body]. now apply (post_last_plus_one _ o1 s1 k).
  - cbn [handle req_body].
    rewrite (post_last_plus_one _ o2 s2 (k + 1)); auto.
    + now rewrite <- app_assoc.
    + apply last_identifier_snoc.
    + now replace (k + 1 - 1) with k by lia.
Qed.

Lemma two_creates_consecutive_witness :
  (assoc "nombre" eva = Some (JStr "Eva")
   /\ "Eva" <> ""
   /\ assoc "nombre" eva = Some (JStr "Eva")
   /\ "Eva" <> ""
   /\ last_identifier_plus_one [JObj ana; JObj leo] = Some 3
   /\ safe_integer (3 - 1)
   /\ safe_integer 3)
  /\ serve [POST_clientes (Some (JObj eva)); POST_clientes (Some (JObj eva))]
           (mkDisk (Some (JArr [JObj ana; JObj leo])) true)
     = ([Returns (mkResponse 201 (JObj (assign "id" (JNum 3) eva)));
         Returns (mkResponse 201 (JObj (assign "id" (JNum (3 + 1)) eva)))],
        mkDisk (Some (JArr ([JObj ana; JObj leo]
                              ++ [JObj (assign "id" (JNum 3) eva);
                                  JObj (assign "id" (JNum (3 + 1)) eva)])%list))
               true).
Proof.
  assert (H2 : "Eva" <> "") by discriminate.
  assert (H6 : safe_integer (3 - 1)) by (unfold safe_integer; lia).
  assert (H7 : safe_integer 3) by (unfold safe_integer; lia).
  split; [repeat split; assumption|].
  exact (two_creates_consecutive [JObj ana; JObj leo] eva eva "Eva" "Eva" 3
           eq_refl H2 eq_refl H2 eq_refl H6 H7).
Defined.

(** X12.  Deleting twice by the same identifier: when one customer
    only carries it, the first delete answers 200 with that customer
    and the second answers 404 and changes nothing. *)
Theorem delete_twice (p : string) (l1 l2 : list (list (string * json)))
        (c : list (string * json)) :
  Forall (fun c' => has_identifier (parseInt p) (JObj c') = false) l1 ->
  has_identifier (parseInt p) (JObj c) = true ->
  Forall (fun c' => has_identifier (parseInt p) (JObj c') = false) l2 ->
  serve [DELETE_clientes p; DELETE_clientes p]
        (mkDisk (Some (JArr (map JObj (l1 ++ c :: l2)%list))) true)
  = ([Returns (mkResponse 200 (JObj c)); Returns (mkResponse 404 no_encontrado)],
     mkDisk (Some (JArr (map JObj (l1 ++ l2)%list))) true).
Proof.
  intros H1 Hc H2.
  apply (serve_two _ _ _ (mkDisk (Some (JArr (map JObj (l1 ++ l2)%list))) true));
    cbn [handle].
  - rewrite !map_app, map_cons.
    rewrite (delete_found p (map JObj l1) (map JObj l2) (JObj c) true); auto.
    now apply no_match_objects.
  - apply delete_not_found. apply no_match_objects.
    apply Forall_app. now split.
Qed.

Lemma delete_twice_witness :
  (Forall (fun c' => has_identifier (parseInt "2") (JObj c') = false) [ana]
   /\ has_identifier (parseInt "2") (JObj leo) = true
   /\ Forall (fun c' => has_identifier (parseInt "2") (JObj c') = false) [])
  /\ serve [DELETE_clientes "2"; DELETE_clientes "2"]
           (mkDisk (Some (JArr (map JObj ([ana] ++ leo :: [])%list))) true)
     = ([Returns (mkResponse 200 (JObj leo));
         Returns (mkResponse 404 no_encontrado)],
        mkDisk (Some (JArr (map JObj ([ana] ++ [])%list))) true).
Proof.
  assert (H1 : Forall (fun c' => has_identifier (parseInt "2") (JObj c') = false)
                      [ana]) by (repeat constructor).
  assert (H3 : Forall (fun c' : list (string * json) =>
                         has_identifier (parseInt "2") (JObj c') = false) [])
    by constructor.
  split; [split; [exact H1 | split; [reflexivity | exact H3]]|].
  exact (delete_twice "2" [ana] [] leo H1 eq_refl H3).
Defined.

(** ** Identifiers that are not numbers *)

(** X13.  A last customer without [id] member: the next customer is
    stored and returned with the identifier [null] (not-a-number has
    no JSON form), and the create after that starts again at 1. *)
Theorem missing_identifier_then_one (l : list json)
        (c o1 o2 : list (string * json)) (nombre1 nombre2 : json) :
  assoc "id" c = None ->
  assoc "nombre" o1 = Some nombre1 ->
  to_boolean (JSON_parse nombre1) = true ->
  assoc "nombre" o2 = Some nombre2 ->
  to_boolean (JSON_parse nombre2) = true ->
  let n1 := JObj (assign "id" JNull o1) in
  let n2 := JObj (assign "id" (JNum 1) o2) in
  serve [POST_clientes (Some (JObj o1)); POST_clientes (Some (JObj o2))]
        (mkDisk (Some (JArr (l ++ [JObj c])%list)) true)
  = ([Returns (mkResponse 201 n1); Returns (mkResponse 201 n2)],
     mkDisk (Some (JArr (l ++ [JObj c; n1; n2])%list)) true).
Proof.
  intros Hc Hn1 Hb1 Hn2 Hb2 n1 n2. subst n1 n2.
  apply (serve_two _ _ _
           (mkDisk (Some (JArr ((l ++ [JObj c])
                                  ++ [JObj (assign "id" JNull o1)])%list)) true));
    cbn [handle req_body].
  - rewrite (post_accepted _ true o1 nombre1 Hn1 Hb1).
    rewrite map_app. cbn [map]. rewrite next_id_last.
    cbn [JSON_parse get_prop]. rewrite assoc_map, Hc. reflexivity.
  - rewrite (post_accepted _ true o2 nombre2 Hn2 Hb2).
    rewrite map_app. cbn [map]. rewrite next_id_last.
    cbn [JSON_parse get_prop]. rewrite assoc_map, assoc_assign_same.
    cbn [option_map JSON_parse plus_one JSON_stringify].
    now rewrite <- !app_assoc.
Qed.

Lemma missing_identifier_then_one_witness :
  (assoc "id" ana_sin_id = None
   /\ assoc "nombre" eva = Some (JStr "Eva")
   /\ to_boolean (JSON_parse (JStr "Eva")) = true
   /\ assoc "nombre" eva = Some (JStr "Eva")
   /\ to_boolean (JSON_parse (JStr "Eva")) = true)
  /\ serve [POST_clientes (Some (JObj eva)); POST_clientes (Some (JObj eva))]
           (mkDisk (Some (JArr ([] ++ [JObj ana_sin_id])%list)) true)
     = ([Returns (mkResponse 201 (JObj (assign "id" JNull eva)));
         Returns (mkResponse 201 (JObj (assign "id" (JNum 1) eva)))],
        mkDisk (Some (JArr ([] ++ [JObj ana_sin_id;
                                   JObj (assign "id" JNull eva);
                                   JObj (assign "id" (JNum 1) eva)])%list)) true).
Proof.
  split; [repeat split|].
  exact (missing_identifier_then_one [] ana_sin_id eva eva (JStr "Eva")
           (JStr "Eva") eq_refl eq_refl eq_refl eq_refl eq_refl).
Defined.

(** X14.  A last customer whose identifier is a string: [+ 1]
    concatenates, and the new customer gets that string followed by
    the character 1. *)
Theorem string_identifier_concatenates (l : list json)
        (c o : list (string * json)) (t : string) (nombre : json) :
  assoc "id" c = Some (JStr t) ->
  assoc "nombre" o = Some nombre ->
  to_boolean (JSON_parse nombre) = true ->
  let nuevo := JObj (assign "id" (JStr (t ++ "1")) o) in
  post_clientes (JSON_parse (JObj o))
    (mkDisk (Some (JArr (l ++ [JObj c])%list)) true)
  = (Returns (mkResponse 201 nuevo),
     mkDisk (Some (JArr ((l ++ [JObj c]) ++ [nuevo])%list)) true).
Proof.
  intros Hc Hn Hb nuevo. subst nuevo.
  rewrite (post_accepted _ true o nombre Hn Hb).
  rewrite map_app. cbn [map]. rewrite next_id_last.
  cbn [JSON_parse get_prop]. rewrite assoc_map, Hc. reflexivity.
Qed.

Lemma string_identifier_concatenates_witness :
  (assoc "id" ana_texto = Some (JStr "7")
   /\ assoc "nombre" eva = Some (JStr "Eva")
   /\ to_boolean (JSON_parse (JStr "Eva")) = true)
  /\ post_clientes (JSON_parse (JObj eva))
       (mkDisk (Some (JArr ([] ++ [JObj ana_texto])%list)) true)
     = (Returns (mkResponse 201 (JObj (assign "id" (JStr ("7" ++ "1")) eva))),
        mkDisk (Some (JArr (([] ++ [JObj ana_texto])
                              ++ [JObj (assign "id" (JStr ("7" ++ "1")) eva)])%list))
               true).
Proof.
  split; [repeat split|].
  exact (string_identifier_concatenates [] ana_texto eva "7" (JStr "Eva")
           eq_refl eq_refl eq_refl).
Defined.

(** ** The record that a create stores *)




(** ** The accessors together *)



(** ** The path parameter *)

Lemma digit_code (a : ascii) :
  is_decimal_digit a = true -> 48 <= code a <= 57.
Proof.
  unfold is_decimal_digit. intros H. apply andb_true_iff in H.
  destruct H as [H1 H2]. apply Z.leb_le in H1, H2. lia.
Qed.

Lemma code_zero (a : ascii) : code a = 48 -> a = "0"%char.
Proof.
  unfold code. intros H.
  assert (E : N_of_ascii a = 48%N) by lia.
  rewrite <- (ascii_N_embedding a), E. reflexivity.
Qed.

Lemma trim_start_digit (a : ascii) (r : string) :
  is_decimal_digit a = true -> trim_start (String a r) = String a r.
Proof.
  intros H. apply digit_code in H.
  assert (E : forall n, n < 48 \/ 57 < n -> (code a =? n) = false).
  { intros n Hn. apply Z.eqb_neq. lia. }
  cbn [trim_start]. cbv zeta.
  rewrite !E by lia. cbn [orb andb].
  destruct r as [|c2 [|c3 r3]]; reflexivity.
Qed.

Lemma read_sign_digit (a : ascii) (r : string) :
  is_decimal_digit a = true -> read_sign (String a r) = (false, String a r).
Proof.
  intros H. apply digit_code in H. unfold read_sign.
  destruct (Z.eqb_spec (code a) 45); [lia|].
  destruct (Z.eqb_spec (code a) 43); [lia|]. reflexivity.
Qed.

Lemma read_digits_junk (ds : string) (c : ascii) (rest : string)
      (acc : option Z) :
  all_digits ds = true ->
  is_decimal_digit c = false ->
  read_digits 10 acc (ds ++ String c rest) = read_digits 10 acc ds.
Proof.
  intros Hds Hc. revert acc.
  induction ds as [|a ds IH]; intros acc.
  - cbn. unfold digit_value. now rewrite Hc.
  - cbn [all_digits] in Hds. apply andb_true_iff in Hds.
    destruct Hds as [Ha Hds]. cbn [append read_digits].
    unfold digit_value. rewrite Ha. apply IH. exact Hds.
Qed.

Lemma read_prefix_digits (a : ascii) (ds : string) :
  all_digits (String a ds) = true ->
  read_prefix (String a ds) = (10, String a ds).
Proof.
  intros H. destruct ds as [|b ds]; [reflexivity|].
  cbn [all_digits] in H. apply andb_true_iff in H. destruct H as [_ H].
  apply andb_true_iff in H. destruct H as [Hb _]. apply digit_code in Hb.
  unfold read_prefix.
  destruct (Z.eqb_spec (code b) 120); [lia|].
  destruct (Z.eqb_spec (code b) 88); [lia|].
  now rewrite andb_false_r.
Qed.

Lemma read_prefix_junk (a : ascii) (ds : string) (c : ascii) (rest : string) :
  all_digits (String a ds) = true ->
  (String a ds = "0" -> code c <> 120 /\ code c <> 88) ->
  read_prefix (String a ds ++ String c rest)
  = (10, String a ds ++ String c rest).
Proof.
  intros H Hx. destruct ds as [|b ds].
  - cbn [append]. unfold read_prefix.
    destruct (Z.eqb_spec (code a) 48) as [E|_]; [|reflexivity].
    apply code_zero in E. subst a. destruct (Hx eq_refl) as [H1 H2].
    apply Z.eqb_neq in H1, H2. now rewrite H1, H2.
  - cbn [all_digits] in H. apply andb_true_iff in H. destruct H as [_ H].
    apply andb_true_iff in H. destruct H as [Hb _]. apply digit_code in Hb.
    cbn [append]. unfold read_prefix.
    destruct (Z.eqb_spec (code b) 120); [lia|].
    destruct (Z.eqb_spec (code b) 88); [lia|].
    now rewrite andb_false_r.
Qed.

Lemma parseInt_junk (ds : string) (c : ascii) (rest : string) :
  all_digits ds = true ->
  ds <> "" ->
  is_decimal_digit c = false ->
  (ds = "0" -> code c <> 120 /\ code c <> 88) ->
  parseInt (ds ++ String c rest) = parseInt ds.
Proof.
  intros Hds Hne Hc Hx. destruct ds as [|a ds]; [congruence|].
  assert (Ha : is_decimal_digit a = true).
  { cbn [all_digits] in Hds. apply andb_true_iff in Hds. tauto. }
  unfold parseInt.
  change (String a ds ++ String c rest) with (String a (ds ++ String c rest)).
  rewrite !trim_start_digit, !read_sign_digit by assumption.
  change (String a (ds ++ String c rest)) with (String a ds ++ String c rest).
  rewrite read_prefix_junk, read_prefix_digits by assumption.
  now rewrite read_digits_junk.
Qed.

(** X17.  DELETE reads the leading digits of its parameter and ignores
    what follows them: a parameter made of decimal digits and then
    anything that does not start with a digit (and is not the prefix
    0x of a hexadecimal numeral) is served exactly like the digits
    alone, on every disk. *)
Theorem delete_ignores_trailing_text (ds : string) (c : ascii) (rest : string)
        (d : disk) :
  all_digits ds = true ->
  ds <> "" ->
  is_decimal_digit c = false ->
  (ds = "0" -> code c <> 120 /\ code c <> 88) ->
  delete_clientes (ds ++ String c rest) d = delete_clientes ds d.
Proof.
  intros Hds Hne Hc Hx. unfold delete_clientes.
  now rewrite (parseInt_junk ds c rest Hds Hne Hc Hx).
Qed.

Lemma delete_ignores_trailing_text_witness :
  (all_digits "12" = true
   /\ "12" <> ""
   /\ is_decimal_digit "."%char = false
   /\ ("12" = "0" -> code "."%char <> 120 /\ code "."%char <> 88))
  /\ delete_clientes ("12" ++ String "."%char "5e3")
       (mkDisk (Some (JArr [JObj ana; doce])) true)
     = delete_clientes "12" (mkDisk (Some (JArr [JObj ana; doce])) true).
Proof.
  assert (H2 : "12" <> "") by discriminate.
  assert (H4 : "12" = "0" -> code "."%char <> 120 /\ code "."%char <> 88)
    by discriminate.
  split; [split; [reflexivity | split; [exact H2 | split; [reflexivity | exact H4]]]|].
  exact (delete_ignores_trailing_text "12" "."%char "5e3"
           (mkDisk (Some (JArr [JObj ana; doce])) true) eq_refl H2 eq_refl H4).
Defined.

(** ** What a run leaves in the file *)

(** X18.  A listing sees the request before it: GET right after a
    create answered 201 returns the array with the new customer last,
    and GET right after a delete answered 200 returns the array
    without the deleted customer. *)
Theorem list_after_write (l l1 l2 : list json) (c : json) (p : string)
        (o : list (string * json)) (nombre : json) (id : value) :
  assoc "nombre" o = Some nombre ->
  to_boolean (JSON_parse nombre) = true ->
  next_id (map JSON_parse l) = Returns id ->
  Forall (fun c => c <> JNull /\ has_identifier (parseInt p) c = false) l1 ->
  has_identifier (parseInt p) c = true ->
  let nuevo := JObj (assign "id" (JSON_stringify id) o) in
  fst (serve [POST_clientes (Some (JObj o)); GET_clientes]
         (mkDisk (Some (JArr l)) true))
  = [Returns (mkResponse 201 nuevo);
     Returns (mkResponse 200 (JArr (l ++ [nuevo])%list))]
  /\ fst (serve [DELETE_clientes p; GET_clientes]
            (mkDisk (Some (JArr (l1 ++ c :: l2)%list)) true))
     = [Returns (mkResponse 200 c);
        Returns (mkResponse 200 (JArr (l1 ++ l2)%list))].
Proof.
  intros Hn Hb Hid H1 Hc nuevo. subst nuevo. split.
  - erewrite serve_two; [reflexivity | |].
    + cbn [handle req_body].
      rewrite (post_accepted l true o nombre Hn Hb), Hid. reflexivity.
    + cbn [handle]. apply get_returns_array.
  - erewrite serve_two; [reflexivity | |].
    + cbn [handle]. now rewrite delete_found.
    + cbn [handle]. apply get_returns_array.
Qed.

Lemma list_after_write_witness :
  (assoc "nombre" eva = Some (JStr "Eva")
   /\ to_boolean (JSON_parse (JStr "Eva")) = true
   /\ next_id (map JSON_parse [JObj ana; JObj leo]) = Returns (VNum (Fin 3))
   /\ Forall (fun c => c <> JNull /\ has_identifier (parseInt "2") c = false)
             [JObj ana]
   /\ has_identifier (parseInt "2") (JObj leo) = true)
  /\ (fst (serve [POST_clientes (Some (JObj eva)); GET_clientes]
             (mkDisk (Some (JArr [JObj ana; JObj leo])) true))
      = [Returns (mkResponse 201
                    (JObj (assign "id" (JSON_stringify (VNum (Fin 3))) eva)));
         Returns (mkResponse 200
                    (JArr ([JObj ana; JObj leo]
                             ++ [JObj (assign "id"
                                         (JSON_stringify (VNum (Fin 3))) eva)])%list))]
      /\ fst (serve [DELETE_clientes "2"; GET_clientes]
                (mkDisk (Some (JArr ([JObj ana] ++ JObj leo :: [])%list)) true))
         = [Returns (mkResponse 200 (JObj leo));
            Returns (mkResponse 200 (JArr ([JObj ana] ++ [])%list))]).
Proof.
  assert (H4 : Forall (fun c => c <> JNull
                                /\ has_identifier (parseInt "2") c = false)
                      [JObj ana]).
  { constructor; [split; [discriminate | reflexivity] | constructor]. }
  split; [split; [reflexivity | split; [reflexivity | split;
            [reflexivity | split; [exact H4 | reflexivity]]]]|].
  exact (list_after_write [JObj ana; JObj leo] [JObj ana] [] (JObj leo) "2" eva
           (JStr "Eva") (VNum (Fin 3)) eq_refl eq_refl eq_refl H4 eq_refl).
Defined.





